(** * Personal Spending Tracker: the Streamlit script [app.py] in Rocq

  The script is one Streamlit page: it authenticates a user, reads the
  user's category list from Firestore, renders the form "spending_form",
  and on submission writes at most one category document and one spending
  document, then shows the spendings table.

  The embedding follows the script top to bottom.
  - Python values: [str] is [string]. The functions on text ([strip],
    [title], [isspace]) are those of Python on ASCII text; a character of
    code 128 or more is kept as an uncased, non-blank character, and what
    depends on trimming or casing is stated for ASCII text ([Py.isascii]).
    [float] is the IEEE-754 [spec_float], a [list] of [str] is a
    [list string].
  - Effects: a script run is a computation in the monad [M], which threads
    the [World] (session state, Firestore, the [st.cache_data] entries),
    collects the [Event]s of the run (documents sent to Firestore, elements
    put on the page) and can raise.
  - Collaborators (Streamlit widgets and cache, Firestore, pandas) are
    modelled by the part of their documented contract the script relies on.
  - The start-up of Firebase (lines 8-33) is not modelled. The sign-in of
    lines 36-64 is [authenticate]; [script] is the page from line 120 on,
    and [page] is the two in sequence. *)

From Stdlib Require Import ZArith String Ascii List Bool Lia SpecFloat.
From Stdlib Require Import Sorted Permutation.
From stdpp Require Import gmap strings list sorting.

Local Open Scope Z_scope.

(** ** Python built-ins used by the script *)

Module Py.

(** [c.isspace()] on ASCII: TAB, LF, VT, FF, CR, FS, GS, RS, US and SPACE. *)
Definition isspace (c : ascii) : bool :=
  let n := N_of_ascii c in
  ((9 <=? n)%N && (n <=? 13)%N) || ((28 <=? n)%N && (n <=? 32)%N).

Definition isupper (c : ascii) : bool :=
  let n := N_of_ascii c in (65 <=? n)%N && (n <=? 90)%N.

Definition islower (c : ascii) : bool :=
  let n := N_of_ascii c in (97 <=? n)%N && (n <=? 122)%N.

(** A cased character is a letter that has an upper and a lower form. *)
Definition iscased (c : ascii) : bool := isupper c || islower c.

Definition upper (c : ascii) : ascii :=
  if islower c then ascii_of_N (N_of_ascii c - 32) else c.

Definition lower (c : ascii) : ascii :=
  if isupper c then ascii_of_N (N_of_ascii c + 32) else c.

(** [s.lstrip()]: drop the leading blanks. *)
Fixpoint lstrip (s : string) : string :=
  match s with
  | EmptyString => EmptyString
  | String c s' => if isspace c then lstrip s' else s
  end.

(** [s.rstrip()]: drop the trailing blanks. *)
Fixpoint rstrip (s : string) : string :=
  match s with
  | EmptyString => EmptyString
  | String c s' =>
      match rstrip s' with
      | EmptyString => if isspace c then EmptyString else String c EmptyString
      | r => String c r
      end
  end.

(** [s.strip()] *)
Definition strip (s : string) : string := rstrip (lstrip s).

(** [s.title()]: CPython walks the string with the flag
    [previous_is_cased]; a character after a cased one is lowered, any
    other is put in title case (upper case, on ASCII). *)
Fixpoint title_from (previous_is_cased : bool) (s : string) : string :=
  match s with
  | EmptyString => EmptyString
  | String c s' =>
      String (if previous_is_cased then lower c else upper c)
             (title_from (iscased c) s')
  end.

Definition title (s : string) : string := title_from false s.

(** Truth value of a [str]: the empty string is false. *)
Definition str_bool (s : string) : bool :=
  match s with EmptyString => false | String _ _ => true end.

(** Truth value of an optional [str]: [None] and [""] are false. *)
Definition opt_bool (o : option string) : bool :=
  match o with None => false | Some s => str_bool s end.

(** Truth value of a [float]: only [0.0] and [-0.0] are false (a NaN is
    true). *)
Definition float_bool (x : spec_float) : bool :=
  match x with S754_zero _ => false | _ => true end.

(** [float(x)] of a [float] is [x]. *)
Definition float (x : spec_float) : spec_float := x.

(** [x in l] for a list of [str]. *)
Definition contains (l : list string) (x : string) : bool :=
  existsb (String.eqb x) l.

(** [sorted(l)] for a list of [str]: ascending by code point; a stable
    merge sort, as CPython's. *)
Definition sorted (l : list string) : list string := merge_sort String.le l.

(** [s.isspace()]: at least one character and all of them blank. *)
Fixpoint all_space (s : string) : bool :=
  match s with
  | EmptyString => true
  | String c s' => isspace c && all_space s'
  end.

Definition str_isspace (s : string) : bool := str_bool s && all_space s.

(** [s.isascii()]: every code point is below 128. On such text the
    functions of this module are those of Python. *)
Fixpoint isascii (s : string) : bool :=
  match s with
  | EmptyString => true
  | String c s' => (N_of_ascii c <? 128)%N && isascii s'
  end.

(** [s.startswith(p)] *)
Definition startswith (s p : string) : bool := String.prefix p s.

(** The character [title_from] writes for [c]. *)
Definition recase (previous_is_cased : bool) (c : ascii) : ascii :=
  if previous_is_cased then lower c else upper c.

(** A string is [trimmed_left] when it does not start with a blank. *)
Definition trimmed_left (s : string) : Prop :=
  match s with EmptyString => True | String c _ => isspace c = false end.

End Py.


(** ** Values exchanged with Firestore and with the page *)

(** The [timestamp] field: the sentinel [firestore.SERVER_TIMESTAMP] or a
    concrete time. *)
Inductive TimestampValue : Type :=
| SERVER_TIMESTAMP
| Timestamp (t : Z).

(** The dict sent by [categories_ref.add]: [{"name": ..., "userId": ...}]. *)
Record CategoryData : Type := {
  cat_name : string;
  cat_userId : option string
}.

(** The dict sent by [spendings_ref.add]. *)
Record SpendingData : Type := {
  sp_amount : spec_float;
  sp_description : string;
  sp_category : string;
  sp_timestamp : TimestampValue;
  sp_userId : option string
}.

(** A stored category document: the auto ID and the fields. *)
Record CategoryDoc : Type := {
  cdoc_id : N;
  cdoc_name : string;
  cdoc_userId : option string
}.

(** A stored spending document; its timestamp is a time of the server. *)
Record SpendingDoc : Type := {
  sdoc_id : N;
  sdoc_amount : spec_float;
  sdoc_description : string;
  sdoc_category : string;
  sdoc_timestamp : Z;
  sdoc_userId : option string
}.

(** A call of [.add] on a collection reference. *)
Inductive Write : Type :=
| CategoryAdd (ref : string) (data : CategoryData)
| SpendingAdd (ref : string) (data : SpendingData).

(** The two kinds of collection, keyed by their path. A path that was never
    written to is an empty collection. *)
Record Firestore : Type := {
  categories_docs : gmap string (list CategoryDoc);
  spendings_docs : gmap string (list SpendingDoc);
  next_id : N
}.

(** *** pandas *)

Inductive Cell : Type :=
| CFloat (x : spec_float)
| CStr (s : string)
| CNone
| CTimestamp (t : Z)
| CDatetime (t : Z)
| CId (n : N)
| CNaN.

(** A Python dict with [str] keys, in insertion order. *)
Definition dict : Type := list (string * Cell).

Record DataFrame : Type := {
  columns : list string;
  rows : list (list Cell)
}.

(** *** The page *)

Inductive Element : Type :=
| st_error (msg : string)
| st_warning (msg : string)
| st_success (msg : string)
| st_info (msg : string)
| st_write (msg : string)
| st_dataframe (df : DataFrame).

(** What a run does that the outside can see. *)
Inductive Event : Type :=
| Sent (w : Write)
| Shown (e : Element).

(** ** The state of a session *)

(** [st.session_state] *)
Record SessionState : Type := {
  user_id : option string;
  auth_ready : bool;
  last_update_time : option Z
}.

(** The values held by the widgets of "spending_form". *)
Record Widgets : Type := {
  amount_input : spec_float;
  description_input : string;
  category_select : nat;
  new_category_input : string
}.

(** An argument of a cached function, as [st.cache_data] sees it. *)
Inductive Arg : Type :=
| ArgUser (u : option string)
| ArgTime (t : option Z).

Record CacheEntry (A : Type) : Type := {
  entry_key : list (string * Arg);
  entry_stored_at : Z;
  entry_value : A;
  entry_replay : list Element
}.
Arguments entry_key {A}.
Arguments entry_stored_at {A}.
Arguments entry_value {A}.
Arguments entry_replay {A}.

Record World : Type := {
  app_id : string;
  session_state : SessionState;
  widgets : Widgets;
  db : Firestore;
  fetch_categories_cache : list (CacheEntry (list string));
  fetch_spendings_cache : list (CacheEntry DataFrame)
}.

(** What a run receives from outside: the clock of the process, the commit
    time the server will assign, whether the run was triggered by the form's
    submit button, and which Firestore calls fail (with which message). *)
Record Env : Type := {
  now : Z;
  commit_time : Z;
  submit_button : bool;
  categories_get_error : option string;
  categories_add_error : option string;
  spendings_get_error : option string;
  spendings_add_error : option string
}.

(** ** The monad of a script run *)

Inductive Exn : Type :=
| StopException
| Error (msg : string).

Inductive Outcome (A : Type) : Type :=
| Returned (a : A)
| Raised (e : Exn).
Arguments Returned {A}.
Arguments Raised {A}.

Definition M (A : Type) : Type := Env -> World -> Outcome A * World * list Event.

Definition ret {A} (a : A) : M A := fun _ w => (Returned a, w, []).

Definition bind {A B} (m : M A) (k : A -> M B) : M B :=
  fun env w =>
    match m env w with
    | (Returned a, w1, ev1) =>
        match k a env w1 with
        | (r, w2, ev2) => (r, w2, ev1 ++ ev2)
        end
    | (Raised e, w1, ev1) => (Raised e, w1, ev1)
    end.

#[global] Instance M_ret : MRet M := fun A a => ret a.
#[global] Instance M_bind : MBind M := fun A B k m => bind m k.

Definition raise {A} (e : Exn) : M A := fun _ w => (Raised e, w, []).

(** [try: m  except Exception as e: handler e]. [st.stop()] is not an
    [Exception] and passes through. *)
Definition try_except {A} (m : M A) (handler : string -> M A) : M A :=
  fun env w =>
    match m env w with
    | (Raised (Error msg), w1, ev1) =>
        match handler msg env w1 with
        | (r, w2, ev2) => (r, w2, ev1 ++ ev2)
        end
    | other => other
    end.

Definition ask : M Env := fun env w => (Returned env, w, []).
Definition get : M World := fun _ w => (Returned w, w, []).
Definition emit (e : Event) : M unit := fun _ w => (Returned tt, w, [e]).
Definition show (e : Element) : M unit := emit (Shown e).
Definition st_stop {A} : M A := raise StopException.

Definition set_db (d : Firestore) : M unit :=
  fun _ w =>
    (Returned tt,
     {| app_id := app_id w; session_state := session_state w;
        widgets := widgets w; db := d;
        fetch_categories_cache := fetch_categories_cache w;
        fetch_spendings_cache := fetch_spendings_cache w |}, []).

Definition set_session_state (s : SessionState) : M unit :=
  fun _ w =>
    (Returned tt,
     {| app_id := app_id w; session_state := s;
        widgets := widgets w; db := db w;
        fetch_categories_cache := fetch_categories_cache w;
        fetch_spendings_cache := fetch_spendings_cache w |}, []).

Definition with_widgets (v : Widgets) (w : World) : World :=
  {| app_id := app_id w; session_state := session_state w;
     widgets := v; db := db w;
     fetch_categories_cache := fetch_categories_cache w;
     fetch_spendings_cache := fetch_spendings_cache w |}.

Definition with_categories_cache (c : list (CacheEntry (list string))) (w : World) : World :=
  {| app_id := app_id w; session_state := session_state w;
     widgets := widgets w; db := db w;
     fetch_categories_cache := c;
     fetch_spendings_cache := fetch_spendings_cache w |}.

Definition with_spendings_cache (c : list (CacheEntry DataFrame)) (w : World) : World :=
  {| app_id := app_id w; session_state := session_state w;
     widgets := widgets w; db := db w;
     fetch_categories_cache := fetch_categories_cache w;
     fetch_spendings_cache := c |}.

(** [st.session_state.last_update_time = datetime.now()] *)
Definition touch_last_update_time : M unit :=
  env ← ask;
  w ← get;
  set_session_state
    {| user_id := user_id (session_state w);
       auth_ready := auth_ready (session_state w);
       last_update_time := Some (now env) |}.

(** [for x in l: ys.append(f(x))]: the calls are made in order and the loop
    ends at the first one that raises. *)
Fixpoint for_each {A B} (f : A -> M B) (l : list A) : M (list B) :=
  match l with
  | [] => ret []
  | x :: l' => y ← f x; ys ← for_each f l'; ret (y :: ys)
  end.

(** The events of a run that are calls of [.add]. *)
Fixpoint sent (evs : list Event) : list Write :=
  match evs with
  | [] => []
  | Sent x :: evs' => x :: sent evs'
  | Shown _ :: evs' => sent evs'
  end.

(** The elements a run put on the page. *)
Fixpoint shown (evs : list Event) : list Element :=
  match evs with
  | [] => []
  | Shown x :: evs' => x :: shown evs'
  | Sent _ :: evs' => shown evs'
  end.

(** ** Firestore: the calls the script makes *)

Module Firestore.

(** [ref.get()] on a categories collection. *)
Definition get_categories (ref : string) : M (list CategoryDoc) :=
  fun env w =>
    match categories_get_error env with
    | Some e => (Raised (Error e), w, [])
    | None => (Returned (default [] (categories_docs (db w) !! ref)), w, [])
    end.

(** [ref.add(data)] on a categories collection: a new document with an
    auto ID is appended. *)
Definition add_category (ref : string) (data : CategoryData) : M unit :=
  emit (Sent (CategoryAdd ref data));;
  env ← ask;
  match categories_add_error env with
  | Some e => raise (Error e)
  | None =>
      w ← get;
      let d := db w in
      let doc := {| cdoc_id := next_id d; cdoc_name := cat_name data;
                    cdoc_userId := cat_userId data |} in
      set_db {| categories_docs :=
                  <[ref := default [] (categories_docs d !! ref) ++ [doc]]>
                    (categories_docs d);
                spendings_docs := spendings_docs d;
                next_id := N.succ (next_id d) |}
  end.

(** The server replaces the sentinel by the time of the commit. *)
Definition resolve (commit : Z) (t : TimestampValue) : Z :=
  match t with
  | SERVER_TIMESTAMP => commit
  | Timestamp t => t
  end.

(** [ref.add(data)] on a spendings collection. *)
Definition add_spending (ref : string) (data : SpendingData) : M unit :=
  emit (Sent (SpendingAdd ref data));;
  env ← ask;
  match spendings_add_error env with
  | Some e => raise (Error e)
  | None =>
      w ← get;
      let d := db w in
      let doc := {| sdoc_id := next_id d; sdoc_amount := sp_amount data;
                    sdoc_description := sp_description data;
                    sdoc_category := sp_category data;
                    sdoc_timestamp := resolve (commit_time env) (sp_timestamp data);
                    sdoc_userId := sp_userId data |} in
      set_db {| categories_docs := categories_docs d;
                spendings_docs :=
                  <[ref := default [] (spendings_docs d !! ref) ++ [doc]]>
                    (spendings_docs d);
                next_id := N.succ (next_id d) |}
  end.

(** The order of [order_by("timestamp", direction=DESCENDING)]. *)
Definition newer_first (a b : SpendingDoc) : Prop :=
  sdoc_timestamp b <= sdoc_timestamp a.

#[global] Instance newer_first_dec : RelDecision newer_first.
Proof. intros a b. unfold newer_first. apply Z.le_dec. Defined.

(** [ref.order_by("timestamp", direction=firestore.Query.DESCENDING).get()] *)
Definition get_spendings_by_timestamp_desc (ref : string) : M (list SpendingDoc) :=
  fun env w =>
    match spendings_get_error env with
    | Some e => (Raised (Error e), w, [])
    | None =>
        (Returned (merge_sort newer_first (default [] (spendings_docs (db w) !! ref))),
         w, [])
    end.

(** [firestore.Timestamp], the attribute of the module
    [firebase_admin.firestore] that line 93 names. The module passes on the
    public names of [google.cloud.firestore], and [Timestamp] is none of
    them: evaluating the expression raises AttributeError. Had the module the
    attribute, it would be a class, given here by its test of membership. *)
Definition Timestamp_class : M (Cell -> bool) :=
  raise (Error "module 'firebase_admin.firestore' has no attribute 'Timestamp'").

(** [t.to_datetime()] *)
Definition to_datetime (c : Cell) : Cell :=
  match c with CTimestamp t => CDatetime t | other => other end.

(** [doc.to_dict()] *)
Definition to_dict (doc : SpendingDoc) : dict :=
  [("amount", CFloat (sdoc_amount doc));
   ("description", CStr (sdoc_description doc));
   ("category", CStr (sdoc_category doc));
   ("timestamp", CTimestamp (sdoc_timestamp doc));
   ("userId", match sdoc_userId doc with Some u => CStr u | None => CNone end)].

End Firestore.

(** ** pandas: the calls the script makes *)

Module Pd.

Fixpoint dict_get (d : dict) (k : string) : option Cell :=
  match d with
  | [] => None
  | (k', v) :: d' => if String.eqb k k' then Some v else dict_get d' k
  end.

(** [d[k] = v] *)
Fixpoint dict_set (d : dict) (k : string) (v : Cell) : dict :=
  match d with
  | [] => [(k, v)]
  | (k', v') :: d' =>
      if String.eqb k k' then (k', v) :: d' else (k', v') :: dict_set d' k v
  end.

Definition keys (d : dict) : list string := map fst d.

(** The keys of [d] that [cols] does not have yet, in the order of [d]. *)
Fixpoint new_keys (cols : list string) (ks : list string) : list string :=
  match ks with
  | [] => []
  | k :: ks' =>
      if Py.contains cols k then new_keys cols ks'
      else k :: new_keys (cols ++ [k]) ks'
  end.

(** [pd.DataFrame(data)] for a list of dicts: one column per key, in the
    order of first appearance; a key a row lacks gives NaN. *)
Definition DataFrame_of (data : list dict) : DataFrame :=
  let cols := fold_left (fun cols d => cols ++ new_keys cols (keys d)) data [] in
  {| columns := cols;
     rows := map (fun d => map (fun c => default CNaN (dict_get d c)) cols) data |}.

(** [pd.DataFrame()] *)
Definition empty_frame : DataFrame := {| columns := []; rows := [] |}.

(** [df.empty] *)
Definition empty (df : DataFrame) : bool :=
  match columns df, rows df with
  | [], _ | _, [] => true
  | _, _ => false
  end.

Fixpoint index_of (cols : list string) (c : string) : option nat :=
  match cols with
  | [] => None
  | c' :: cols' =>
      if String.eqb c c' then Some O
      else match index_of cols' c with Some i => Some (S i) | None => None end
  end.

Fixpoint indices (cols : list string) (wanted : list string) : option (list nat) :=
  match wanted with
  | [] => Some []
  | c :: wanted' =>
      match index_of cols c, indices cols wanted' with
      | Some i, Some ixs => Some (i :: ixs)
      | _, _ => None
      end
  end.

(** [df[[c1, ..., cn]]]: the columns named, in that order; a name that is
    not a column raises KeyError. *)
Definition select (df : DataFrame) (wanted : list string) : M DataFrame :=
  match indices (columns df) wanted with
  | Some ixs =>
      ret {| columns := wanted;
             rows := map (fun r => map (fun i => nth i r CNaN) ixs) (rows df) |}
  | None => raise (Error "KeyError")
  end.

(** [df.columns = names] *)
Definition set_columns (df : DataFrame) (names : list string) : M DataFrame :=
  if Nat.eqb (List.length names) (List.length (columns df))
  then ret {| columns := names; rows := rows df |}
  else raise (Error "ValueError: Length mismatch").

End Pd.

(** ** Streamlit: the calls the script makes *)

Module St.

#[global] Instance Arg_eq_dec : EqDecision Arg.
Proof. solve_decision. Defined.

(** [st.cache_data] builds the key of an entry from the arguments of the
    call, leaving out every parameter whose name starts with an underscore. *)
Definition hashed (args : list (string * Arg)) : list (string * Arg) :=
  List.filter (fun p => negb (Py.startswith (fst p) "_")) args.

(** An entry answers a call with the same key for [ttl] seconds. *)
Definition fresh_entry {A} (ttl : Z) (key : list (string * Arg)) (t : Z)
    (e : CacheEntry A) : bool :=
  bool_decide (entry_key e = key) && (t <? entry_stored_at e + ttl).

(** [@st.cache_data(ttl=ttl)] around [body], called with [args]. On a hit
    the stored value is returned and the elements the body had shown are
    shown again; on a miss the body runs and its result is stored. A body
    that raises stores nothing. *)
Definition cache_data {A} (ttl : Z)
    (cache : World -> list (CacheEntry A))
    (with_cache : list (CacheEntry A) -> World -> World)
    (args : list (string * Arg)) (body : M A) : M A :=
  fun env w =>
    let key := hashed args in
    match List.find (fresh_entry ttl key (now env)) (cache w) with
    | Some e => (Returned (entry_value e), w, map Shown (entry_replay e))
    | None =>
        match body env w with
        | (Returned v, w1, evs) =>
            let e := {| entry_key := key; entry_stored_at := now env;
                        entry_value := v; entry_replay := shown evs |} in
            let others :=
              List.filter (fun e' => negb (bool_decide (entry_key e' = key)))
                          (cache w1) in
            (Returned v, with_cache (e :: others) w1, evs)
        | other => other
        end
    end.

(** [st.number_input("Amount", min_value=min_value, ...)], called without
    [value]: the widget starts at [min_value] and takes over what the user
    enters only when it is a number of at least [min_value]. Any other entry
    is refused and the widget keeps its value, which in a form that is
    cleared on every submission is the initial [min_value]. *)
Definition number_input (min_value : spec_float) : M spec_float :=
  w ← get;
  let entered := amount_input (widgets w) in
  ret (if SFleb min_value entered then entered else min_value).

(** [st.text_input("Description ...")] *)
Definition text_input_description : M string :=
  w ← get; ret (description_input (widgets w)).

(** [st.text_input("Enter New Category Name")] *)
Definition text_input_new_category : M string :=
  w ← get; ret (new_category_input (widgets w)).

(** [st.selectbox("Category", options)]: the option at the index the widget
    holds; the widget starts at the first option. *)
Definition selectbox (options : list string) : M string :=
  w ← get; ret (nth (category_select (widgets w)) options (hd EmptyString options)).

(** [st.form_submit_button("Add Spending")] *)
Definition form_submit_button : M bool :=
  env ← ask; ret (submit_button env).

(** [with st.form(key, clear_on_submit=clear_on_submit): body]. With
    [clear_on_submit], the widgets of the form go back to their default
    values once the user has pressed the submit button; the run triggered
    by the button still reads the submitted values. *)
Definition form {A} (clear_on_submit : bool) (defaults : Widgets) (body : M A) : M A :=
  fun env w =>
    match body env w with
    | (r, w1, evs) =>
        (r, if clear_on_submit && submit_button env
            then with_widgets defaults w1 else w1, evs)
    end.

End St.

(** ** The script *)

(** What a submission of the form came to. The script reports it on the
    page; the tag names the branch taken. *)
Inductive SubmitResult : Type :=
| NotSubmitted
| ValidationError (message : string)
| Success (final_category : string)
| CollectionNotReady
| StoreError (message : string).

(** The literal [0.01]: the binary64 number [0x1.47ae147ae147bp-7]. *)
Definition min_value : spec_float := S754_finite false 5764607523034235 (-59).

(** The widgets of the form before the user touches them. *)
Definition default_widgets : Widgets :=
  {| amount_input := min_value;
     description_input := "";
     category_select := 0;
     new_category_input := "" |}.

(** The path [get_spendings_collection_ref] answers in the world [w]. *)
Definition spendings_collection_ref (w : World) : option string :=
  match user_id (session_state w) with
  | Some uid =>
      if Py.str_bool uid
      then Some ("artifacts/" +:+ app_id w +:+ "/users/" +:+ uid +:+ "/spendings")
      else None
  | None => None
  end.

(** Lines 67-71. *)
Definition get_spendings_collection_ref : M (option string) :=
  w ← get; ret (spendings_collection_ref w).

(** The path [get_categories_collection_ref] answers in the world [w]. *)
Definition categories_collection_ref (w : World) : option string :=
  match user_id (session_state w) with
  | Some uid =>
      if Py.str_bool uid
      then Some ("artifacts/" +:+ app_id w +:+ "/users/" +:+ uid +:+ "/categories")
      else None
  | None => None
  end.

(** Lines 73-77. *)
Definition get_categories_collection_ref : M (option string) :=
  w ← get; ret (categories_collection_ref w).

(** The body of the loop of lines 89-95: the dict of one spending. The
    test of line 93 evaluates ['timestamp' in spending] first and looks up
    [firestore.Timestamp] only when the key is there. *)
Definition spending_row (doc : SpendingDoc) : M dict :=
  let spending := Firestore.to_dict doc in
  let spending := Pd.dict_set spending "id" (CId (sdoc_id doc)) in
  match Pd.dict_get spending "timestamp" with
  | Some timestamp =>
      Timestamp ← Firestore.Timestamp_class;
      if Timestamp timestamp : bool
      then ret (Pd.dict_set spending "timestamp" (Firestore.to_datetime timestamp))
      else ret spending
  | None => ret spending
  end.

(** Lines 81-99: the body of [fetch_spendings], which the decorator of line
    80 wraps. *)
Definition fetch_spendings_body (_user_id : option string) (_timestamp : option Z)
  : M DataFrame :=
  spendings_ref ← get_spendings_collection_ref;
  match spendings_ref with
  | None => ret Pd.empty_frame
  | Some ref =>
      try_except
        (docs ← Firestore.get_spendings_by_timestamp_desc ref;
         data ← for_each spending_row docs;
         ret (Pd.DataFrame_of data))
        (fun e =>
           show (st_error ("Error fetching spendings: " +:+ e));;
           ret Pd.empty_frame)
  end.

(** Lines 102-113: the body of [fetch_categories], which the decorator of
    line 101 wraps. *)
Definition fetch_categories_body (_user_id : option string) (_timestamp : option Z)
  : M (list string) :=
  categories_ref ← get_categories_collection_ref;
  match categories_ref with
  | None => ret []
  | Some ref =>
      try_except
        (docs ← Firestore.get_categories ref;
         let categories := map cdoc_name docs in
         ret (Py.sorted categories))
        (fun e =>
           show (st_error ("Error fetching categories: " +:+ e));;
           ret [])
  end.

(** Lines 80-99: [fetch_spendings], the function the script calls: its body
    under [@st.cache_data(ttl=60)]. *)
Definition fetch_spendings (_user_id : option string) (_timestamp : option Z)
  : M DataFrame :=
  St.cache_data 60 fetch_spendings_cache with_spendings_cache
    [("_user_id", ArgUser _user_id); ("_timestamp", ArgTime _timestamp)]
    (fetch_spendings_body _user_id _timestamp).

(** Lines 101-113: [fetch_categories], the function the script calls: its
    body under [@st.cache_data(ttl=60)]. *)
Definition fetch_categories (_user_id : option string) (_timestamp : option Z)
  : M (list string) :=
  St.cache_data 60 fetch_categories_cache with_categories_cache
    [("_user_id", ArgUser _user_id); ("_timestamp", ArgTime _timestamp)]
    (fetch_categories_body _user_id _timestamp).

(** Line 143. *)
Definition category_options (categories : list string) : list string :=
  ["Select an existing category"] ++ categories ++ ["--- Create New Category ---"].

(** Lines 144-156: the category widgets. Returns [new_category_name] and
    [selected_category_option] as they stand at line 158. *)
Definition category_selection (categories : list string)
  : M (option string * string) :=
  selected_category_option ← St.selectbox (category_options categories);
  if String.eqb selected_category_option "--- Create New Category ---" then
    new_category_name ← St.text_input_new_category;
    if Py.str_bool new_category_name then
      let new_category_name := Py.title (Py.strip new_category_name) in
      if Py.contains categories new_category_name then
        show (st_warning ("Category '" +:+ new_category_name
                          +:+ "' already exists. Selecting it instead."));;
        ret (Some new_category_name, new_category_name)
      else
        ret (Some new_category_name, new_category_name)
    else ret (Some new_category_name, selected_category_option)
  else ret (None, selected_category_option).

(** Lines 172-194: the body of the [try]. *)
Definition add_spending (categories : list string) (amount : spec_float)
    (description final_category : string) : M SubmitResult :=
  (if negb (Py.contains categories final_category) then
     categories_ref ← get_categories_collection_ref;
     match categories_ref with
     | Some ref =>
         w ← get;
         Firestore.add_category ref
           {| cat_name := final_category;
              cat_userId := user_id (session_state w) |};;
         touch_last_update_time;;
         show (st_success ("New category '" +:+ final_category +:+ "' created!"))
     | None => ret tt
     end
   else ret tt);;
  spendings_ref ← get_spendings_collection_ref;
  match spendings_ref with
  | Some ref =>
      w ← get;
      Firestore.add_spending ref
        {| sp_amount := Py.float amount;
           sp_description := Py.strip description;
           sp_category := final_category;
           sp_timestamp := SERVER_TIMESTAMP;
           sp_userId := user_id (session_state w) |};;
      show (st_success "Spending added successfully!");;
      touch_last_update_time;;
      ret (Success final_category)
  | None =>
      show (st_error "Firestore collection not ready. Please refresh.");;
      ret CollectionNotReady
  end.

(** Lines 160-197: what the run does when the submit button was pressed. *)
Definition submit (categories : list string) (amount : spec_float)
    (description : string) (selected_category_option : string)
    (new_category_name : option string) : M SubmitResult :=
  if negb (Py.float_bool amount) || negb (Py.str_bool description) then
    show (st_error "Please enter both Amount and Description.");;
    ret (ValidationError "Please enter both Amount and Description.")
  else if String.eqb selected_category_option "Select an existing category" then
    show (st_error "Please select or create a category.");;
    ret (ValidationError "Please select or create a category.")
  else if String.eqb selected_category_option "--- Create New Category ---"
          && negb (Py.opt_bool new_category_name) then
    show (st_error "Please enter a name for the new category.");;
    ret (ValidationError "Please enter a name for the new category.")
  else
    let final_category := selected_category_option in
    let final_category :=
      if String.eqb selected_category_option "--- Create New Category ---"
         && Py.opt_bool new_category_name
      then Py.title (Py.strip (default EmptyString new_category_name))
      else final_category in
    try_except
      (add_spending categories amount description final_category)
      (fun e =>
         show (st_error ("Error adding spending: " +:+ e));;
         ret (StoreError e)).

(** Lines 136-197: [with st.form("spending_form", clear_on_submit=True)]. *)
Definition spending_form (categories : list string) : M SubmitResult :=
  St.form true default_widgets
    (amount ← St.number_input min_value;
     description ← St.text_input_description;
     '(new_category_name, selected_category_option) ← category_selection categories;
     submit_button ← St.form_submit_button;
     if submit_button : bool then
       submit categories amount description selected_category_option new_category_name
     else ret NotSubmitted).

(** Lines 206-212: the table of the spendings. The frame with the four
    columns picked at line 208 is [display_df] before line 209 renames its
    columns. *)
Definition display_columns : list string :=
  ["timestamp"; "amount"; "category"; "description"].

Definition display_spendings (spendings_df : DataFrame) : M unit :=
  if negb (Pd.empty spendings_df) then
    display_df ← Pd.select spendings_df display_columns;
    display_df ← Pd.set_columns display_df
                   ["Date/Time"; "Amount"; "Category"; "Description"];
    show (st_dataframe display_df)
  else
    show (st_info "No spendings recorded yet. Add some above!").

(** Lines 120-216: one run of the page for a session whose authentication
    has been attempted. Titles, headers and rules are not modelled. *)
Definition script : M SubmitResult :=
  w ← get;
  if negb (auth_ready (session_state w)) then
    show (st_info "Initializing application and authenticating...");;
    st_stop
  else if negb (Py.opt_bool (user_id (session_state w)))
          || bool_decide (user_id (session_state w) = Some "anonymous_unauthenticated") then
    show (st_error "Could not authenticate user. Please try refreshing the page.");;
    st_stop
  else
    show (st_write ("Logged in as: `" +:+ default EmptyString (user_id (session_state w)) +:+ "`"));;
    (match last_update_time (session_state w) with
     | None => touch_last_update_time
     | Some _ => ret tt
     end);;
    w ← get;
    categories ← fetch_categories (user_id (session_state w))
                   (last_update_time (session_state w));
    result ← spending_form categories;
    w ← get;
    spendings_df ← fetch_spendings (user_id (session_state w))
                     (last_update_time (session_state w));
    display_spendings spendings_df;;
    show (st_write "Data is stored in Firestore and can be easily exported for ML analysis.");;
    show (st_write ("Firestore Path: `artifacts/" +:+ app_id w +:+ "/users/"
                    +:+ default EmptyString (user_id (session_state w)) +:+ "/...`"));;
    ret result.

(** ** Reading the result of a run *)

Definition outcome {A} (x : Outcome A * World * list Event) : Outcome A := fst (fst x).
Definition world_after {A} (x : Outcome A * World * list Event) : World := snd (fst x).
Definition events {A} (x : Outcome A * World * list Event) : list Event := snd x.

(** The zero the amounts are compared with. *)
Definition zero : spec_float := S754_zero false.

(** The widget values a user has typed in. *)
Definition fill (amount : spec_float) (description : string) (category : nat)
    (new_category : string) (w : World) : World :=
  with_widgets {| amount_input := amount; description_input := description;
                  category_select := category; new_category_input := new_category |} w.

(** The amount the amount widget of the form returns in the world [w]. *)
Definition amount_of (w : World) : spec_float :=
  if SFleb min_value (amount_input (widgets w)) then amount_input (widgets w)
  else min_value.

(** The choice the select box of the form returns in the world [w]. *)
Definition selected_option (categories : list string) (w : World) : string :=
  nth (category_select (widgets w)) (category_options categories)
      (hd EmptyString (category_options categories)).

(** ** The words of the claims about text *)




(** ** Category records *)

(** Normalization of a category name: trim, then title case (line 151). *)
Definition normalize (s : string) : string := Py.title (Py.strip s).

(** The names of the category documents of the collection [ref]. *)
Definition category_names (d : Firestore) (ref : string) : list string :=
  map cdoc_name (default [] (categories_docs d !! ref)).

(** No collection holds two category documents with the same normalized name. *)
Definition no_duplicate_categories (d : Firestore) : Prop :=
  forall ref, NoDup (map normalize (category_names d ref)).

(** Every stored name is normalized and stored once. *)
Definition categories_normalized (d : Firestore) : Prop :=
  forall ref,
    NoDup (category_names d ref) /\
    (forall n, In n (category_names d ref) -> normalize n = n).

(** The category names of the session's user, as stored now. *)
Definition current_categories (w : World) : list string :=
  match categories_collection_ref w with
  | Some ref => category_names (db w) ref
  | None => []
  end.


(** The list the form was given has the names stored now. *)
Definition up_to_date (categories : list string) (w : World) : Prop :=
  forall n, In n categories <-> In n (current_categories w).

Definition with_session_state (s : SessionState) (w : World) : World :=
  {| app_id := app_id w; session_state := s;
     widgets := widgets w; db := db w;
     fetch_categories_cache := fetch_categories_cache w;
     fetch_spendings_cache := fetch_spendings_cache w |}.

(** The worlds reached from an empty categories store by sessions that fill
    in the form, with a new category name of ASCII text if any, and run it
    on an up-to-date category list. *)
Inductive reachable : World -> Prop :=
| reachable_start w :
    categories_docs (db w) = ∅ -> reachable w
| reachable_fill w v :
    reachable w -> reachable (with_widgets v w)
| reachable_session w s :
    reachable w -> reachable (with_session_state s w)
| reachable_submit w env categories :
    reachable w ->
    Py.isascii (new_category_input (widgets w)) = true ->
    up_to_date categories w ->
    reachable (world_after (spending_form categories env w)).

(** The worlds reached from an empty store and empty caches by runs of the
    whole page. *)
Inductive reachable_by_script : World -> Prop :=
| script_start w :
    categories_docs (db w) = ∅ -> spendings_docs (db w) = ∅ ->
    fetch_categories_cache w = [] -> fetch_spendings_cache w = [] ->
    reachable_by_script w
| script_fill w v :
    reachable_by_script w -> reachable_by_script (with_widgets v w)
| script_run w env :
    reachable_by_script w -> reachable_by_script (world_after (script env w)).

(** A write to a categories collection. *)
Definition is_category_add (x : Write) : bool :=
  match x with CategoryAdd _ _ => true | SpendingAdd _ _ => false end.

(** ** Sample worlds *)

Definition empty_store : Firestore :=
  {| categories_docs := ∅; spendings_docs := ∅; next_id := 0 |}.

(** A signed-in session on an empty store. *)
Definition fresh_world : World :=
  {| app_id := "default-app-id";
     session_state := {| user_id := Some "alice"; auth_ready := true;
                         last_update_time := None |};
     widgets := default_widgets;
     db := empty_store;
     fetch_categories_cache := [];
     fetch_spendings_cache := [] |}.

(** A run at time [t] in which every Firestore call succeeds. *)
Definition calm (t : Z) (pressed : bool) : Env :=
  {| now := t; commit_time := t; submit_button := pressed;
     categories_get_error := None; categories_add_error := None;
     spendings_get_error := None; spendings_add_error := None |}.

(** A run at time [t] in which reading the categories fails. *)
Definition categories_unreadable (t : Z) (pressed : bool) : Env :=
  {| now := t; commit_time := t; submit_button := pressed;
     categories_get_error := Some "503 unavailable"; categories_add_error := None;
     spendings_get_error := None; spendings_add_error := None |}.

(** The amounts 5.0, -5.0 and 12.5. *)
Definition five : spec_float := S754_finite false 5629499534213120 (-50).
Definition minus_five : spec_float := S754_finite true 5629499534213120 (-50).
Definition twelve_fifty : spec_float := S754_finite false 7036874417766400 (-49).

(** *** The category widgets as functions of the world *)

(** [new_category_name] as it stands at line 158. *)
Definition new_category_name_of (categories : list string) (w : World) : option string :=
  if String.eqb (selected_option categories w) "--- Create New Category ---" then
    Some (if Py.str_bool (new_category_input (widgets w))
          then normalize (new_category_input (widgets w))
          else new_category_input (widgets w))
  else None.

(** [selected_category_option] as it stands at line 158. *)
Definition resolved_option (categories : list string) (w : World) : string :=
  if String.eqb (selected_option categories w) "--- Create New Category ---"
     && Py.str_bool (new_category_input (widgets w))
  then normalize (new_category_input (widgets w))
  else selected_option categories w.

(** The warning of line 153, when it is shown. *)
Definition selection_events (categories : list string) (w : World) : list Event :=
  if String.eqb (selected_option categories w) "--- Create New Category ---"
     && Py.str_bool (new_category_input (widgets w))
     && Py.contains categories (normalize (new_category_input (widgets w)))
  then [Shown (st_warning ("Category '" +:+ normalize (new_category_input (widgets w))
                           +:+ "' already exists. Selecting it instead."))]
  else [].

(** [final_category] as lines 168-170 compute it. *)
Definition final_category_of (selected_category_option : string)
    (new_category_name : option string) : string :=
  if String.eqb selected_category_option "--- Create New Category ---"
     && Py.opt_bool new_category_name
  then Py.title (Py.strip (default EmptyString new_category_name))
  else selected_category_option.

(** The documents a run of [submit] sends and the server stores, for the
    values handed to [submit]. *)
Definition category_data (w : World) (fc : string) : CategoryData :=
  {| cat_name := fc; cat_userId := user_id (session_state w) |}.

Definition stored_category (id : N) (w : World) (fc : string) : CategoryDoc :=
  {| cdoc_id := id; cdoc_name := fc; cdoc_userId := user_id (session_state w) |}.

Definition spending_data (w : World) (amount : spec_float) (description fc : string)
  : SpendingData :=
  {| sp_amount := amount;
     sp_description := Py.strip description;
     sp_category := fc;
     sp_timestamp := SERVER_TIMESTAMP;
     sp_userId := user_id (session_state w) |}.

Definition spending_doc (id : N) (env : Env) (w : World) (amount : spec_float)
    (description fc : string) : SpendingDoc :=
  {| sdoc_id := id;
     sdoc_amount := amount;
     sdoc_description := Py.strip description;
     sdoc_category := fc;
     sdoc_timestamp := commit_time env;
     sdoc_userId := user_id (session_state w) |}.

(** The same for a run of the form, which hands over the values of the
    widgets. *)
Definition spending_payload (w : World) (fc : string) : SpendingData :=
  spending_data w (amount_of w) (description_input (widgets w)) fc.

Definition stored_spending (id : N) (env : Env) (w : World) (fc : string) : SpendingDoc :=
  spending_doc id env w (amount_of w) (description_input (widgets w)) fc.

(** The categories store after a document named [fc] was added at [ref]. *)
Definition categories_with (w : World) (ref fc : string)
  : gmap string (list CategoryDoc) :=
  <[ref := default [] (categories_docs (db w) !! ref)
           ++ [stored_category (next_id (db w)) w fc]]> (categories_docs (db w)).

(** The spending documents of the collection [ref], as the query of line 87
    returns them. *)
Definition spendings_in_order (d : Firestore) (ref : string) : list SpendingDoc :=
  merge_sort Firestore.newer_first (default [] (spendings_docs d !! ref)).

(** *** Two sessions that end with the category "Food" stored twice *)

Definition alice_categories : string := "artifacts/default-app-id/users/alice/categories".

(** Alice creates the category "food" with her first spending. *)
Definition after_first_run : World :=
  world_after (script (calm 0 true) (fill five "Lunch" 1 "food" fresh_world)).

(** 100 seconds later the categories cannot be read; the form offers no
    category, and Alice creates "Food" with her second spending. *)
Definition after_failed_fetch : World :=
  world_after (script (categories_unreadable 100 true)
                 (fill five "Dinner" 1 "Food" after_first_run)).

(** Or: 10 seconds later every call succeeds, and Alice creates "Food"
    with her second spending. *)
Definition after_quick_run : World :=
  world_after (script (calm 10 true) (fill five "Dinner" 1 "Food" after_first_run)).

(** Two submissions on up-to-date lists create "Tea" and then "Food"; the
    form is then filled in with " tea " under "create new". *)
Definition with_tea : World :=
  world_after (spending_form [] (calm 0 true) (fill five "Chai" 1 "tea" fresh_world)).

Definition with_tea_and_food : World :=
  world_after (spending_form ["Tea"] (calm 1 true) (fill five "Lunch" 2 "food" with_tea)).

Definition tea_again : World := fill five "Chai" 3 " tea " with_tea_and_food.

Definition alice_spendings : string := "artifacts/default-app-id/users/alice/spendings".

(** ** Signing in (lines 36-64) *)

(** What a sign-in call answers: the user, whose id is [user['uid']], or an
    exception. *)
Inductive SignIn : Type :=
| User (uid : string)
| SignInError (msg : string).

(** The authentication service as the script uses it: the token the
    environment supplies and the answers of the two sign-in calls. *)
Record AuthClient : Type := {
  initial_auth_token : option string;
  sign_in_with_custom_token : string -> SignIn;
  sign_in_anonymously : SignIn
}.

(** A sign-in call and the read of [user['uid']]. *)
Definition uid_of (answer : SignIn) : M string :=
  match answer with
  | User uid => ret uid
  | SignInError msg => raise (Error msg)
  end.

(** Lines 36-38: the session state of a session that has just started. *)
Definition new_session : SessionState :=
  {| user_id := None; auth_ready := false; last_update_time := None |}.

(** [st.session_state.user_id = uid; st.session_state.auth_ready = True] *)
Definition signed_in_as (uid : string) : M unit :=
  w ← get;
  set_session_state
    {| user_id := Some uid; auth_ready := true;
       last_update_time := last_update_time (session_state w) |}.

(** Lines 48-64. *)
Definition authenticate (auth_client : AuthClient) : M unit :=
  w ← get;
  if negb (auth_ready (session_state w)) then
    try_except
      (if Py.opt_bool (initial_auth_token auth_client) then
         uid ← uid_of (sign_in_with_custom_token auth_client
                         (default EmptyString (initial_auth_token auth_client)));
         signed_in_as uid;;
         show (st_success ("Authenticated as user: " +:+ uid))
       else
         uid ← uid_of (sign_in_anonymously auth_client);
         signed_in_as uid;;
         show (st_warning ("Signed in anonymously as: " +:+ uid)))
      (fun e =>
         show (st_error ("Authentication failed: " +:+ e));;
         signed_in_as "anonymous_unauthenticated")
  else ret tt.

(** Lines 48-216: one run of the page. *)
Definition page (auth_client : AuthClient) : M SubmitResult :=
  authenticate auth_client;; script.

(** ** What the extra properties speak about *)

(** The session passes the tests of lines 120-126. *)
Definition signed_in (w : World) : bool :=
  auth_ready (session_state w)
  && Py.opt_bool (user_id (session_state w))
  && negb (bool_decide (user_id (session_state w) = Some "anonymous_unauthenticated")).

(** The writes of a run are at most a category document followed by at most
    a spending document, each sent to the collection of the session's user,
    tagged with their id, the spending with the server-timestamp sentinel
    and, when both are sent, with the category just created. *)
Definition own_category_add (w : World) (ref : string) (d : CategoryData) : Prop :=
  categories_collection_ref w = Some ref /\ cat_userId d = user_id (session_state w).

Definition own_spending_add (w : World) (ref : string) (d : SpendingData) : Prop :=
  spendings_collection_ref w = Some ref
  /\ sp_userId d = user_id (session_state w)
  /\ sp_timestamp d = SERVER_TIMESTAMP.

Definition well_formed_writes (w : World) (l : list Write) : Prop :=
  match l with
  | [] => True
  | [CategoryAdd ref d] => own_category_add w ref d
  | [SpendingAdd ref d] => own_spending_add w ref d
  | [CategoryAdd cref c; SpendingAdd sref s] =>
      own_category_add w cref c /\ own_spending_add w sref s
      /\ sp_category s = cat_name c
  | _ => False
  end.

(** The world [w] seen by the session of the user [uid]. *)
Definition as_user (uid : string) (w : World) : World :=
  with_session_state
    {| user_id := Some uid; auth_ready := true; last_update_time := None |} w.

(** [l2] is [l1] followed by at most one more document. *)
Definition extends {A} (l2 l1 : list A) : Prop :=
  exists more, l2 = l1 ++ more /\ (length more <= 1)%nat.

(** Every collection of [d2] holds the documents of [d1], in their order,
    followed by at most one document added since. *)
Definition append_only (d1 d2 : Firestore) : Prop :=
  forall ref,
    extends (default [] (categories_docs d2 !! ref)) (default [] (categories_docs d1 !! ref))
    /\ extends (default [] (spendings_docs d2 !! ref)) (default [] (spendings_docs d1 !! ref)).

(** A computation that only reads: it leaves the world as it is and sends
    nothing to Firestore. *)
Definition read_only {A} (m : M A) : Prop :=
  forall env w, world_after (m env w) = w /\ sent (events (m env w)) = [].

(** The run of [submit] inside the form: on the values of the widgets. *)
Definition form_submit (categories : list string) : M SubmitResult :=
  fun env w =>
    submit categories (amount_of w) (description_input (widgets w))
           (resolved_option categories w) (new_category_name_of categories w) env w.

(** The form holds values the handler accepts: a non-zero amount, a
    description, a category that is selected or named. *)
Definition acceptable (categories : list string) (w : World) : Prop :=
  Py.float_bool (amount_of w) = true
  /\ description_input (widgets w) <> EmptyString
  /\ selected_option categories w <> "Select an existing category"
  /\ (selected_option categories w = "--- Create New Category ---" ->
      new_category_input (widgets w) <> EmptyString).

(** A run at time [t] in which writing a spending fails. *)
Definition spendings_unwritable (t : Z) (pressed : bool) : Env :=
  {| now := t; commit_time := t; submit_button := pressed;
     categories_get_error := None; categories_add_error := None;
     spendings_get_error := None; spendings_add_error := Some "deadline exceeded" |}.

(** A run at time [t] in which writing a category fails. *)
Definition categories_unwritable (t : Z) (pressed : bool) : Env :=
  {| now := t; commit_time := t; submit_button := pressed;
     categories_get_error := None; categories_add_error := Some "permission denied";
     spendings_get_error := None; spendings_add_error := None |}.

(** A run at time [t] in which reading the spendings fails. *)
Definition spendings_unreadable (t : Z) (pressed : bool) : Env :=
  {| now := t; commit_time := t; submit_button := pressed;
     categories_get_error := None; categories_add_error := None;
     spendings_get_error := Some "503 unavailable"; spendings_add_error := None |}.

(** No entry of the cache answers a call at time [t]. *)
Definition categories_cache_misses (t : Z) (w : World) : Prop :=
  List.find (St.fresh_entry 60 [] t) (fetch_categories_cache w) = None.

(** Two worlds with the same application and user. *)
Definition same_user (w1 w2 : World) : Prop :=
  app_id w1 = app_id w2
  /\ user_id (session_state w1) = user_id (session_state w2).

(** An authentication service whose sign-in calls fail. *)
Definition auth_down : AuthClient :=
  {| initial_auth_token := Some "token";
     sign_in_with_custom_token := fun _ => SignInError "invalid token";
     sign_in_anonymously := SignInError "unavailable" |}.

(** An authentication service that knows the token of alice. *)
Definition auth_up : AuthClient :=
  {| initial_auth_token := Some "token";
     sign_in_with_custom_token := fun _ => User "alice";
     sign_in_anonymously := User "guest" |}.

(** The answer of the sign-in call the script makes. *)
Definition sign_in_answer (auth_client : AuthClient) : SignIn :=
  if Py.opt_bool (initial_auth_token auth_client)
  then sign_in_with_custom_token auth_client
         (default EmptyString (initial_auth_token auth_client))
  else sign_in_anonymously auth_client.

Definition spendings_cache_misses (t : Z) (w : World) : Prop :=
  List.find (St.fresh_entry 60 [] t) (fetch_spendings_cache w) = None.

(** *** Facts about the string functions *)

Section PyStrings.
Import Py.

Ltac each_char c := destruct c as [[] [] [] [] [] [] [] []]; vm_compute; try reflexivity; try discriminate; auto.

Lemma iscased_upper c : iscased (upper c) = iscased c.
Proof. each_char c. Qed.

Lemma iscased_lower c : iscased (lower c) = iscased c.
Proof. each_char c. Qed.

Lemma upper_upper c : upper (upper c) = upper c.
Proof. each_char c. Qed.

Lemma lower_lower c : lower (lower c) = lower c.
Proof. each_char c. Qed.

Lemma isspace_upper c : isspace (upper c) = isspace c.
Proof. each_char c. Qed.

Lemma isspace_lower c : isspace (lower c) = isspace c.
Proof. each_char c. Qed.

Lemma isspace_not_cased c : isspace c = true -> iscased c = false.
Proof. each_char c. Qed.

Lemma recase_recase b c : recase b (recase b c) = recase b c.
Proof. destruct b; [apply lower_lower | apply upper_upper]. Qed.

Lemma iscased_recase b c : iscased (recase b c) = iscased c.
Proof. destruct b; [apply iscased_lower | apply iscased_upper]. Qed.

Lemma isspace_recase b c : isspace (recase b c) = isspace c.
Proof. destruct b; [apply isspace_lower | apply isspace_upper]. Qed.

Lemma title_from_idem s : forall b, title_from b (title_from b s) = title_from b s.
Proof.
  induction s as [|c s IH]; intros b; simpl; [reflexivity|].
  fold (recase b c). fold (recase b (recase b c)).
  rewrite recase_recase, iscased_recase, IH. reflexivity.
Qed.

Lemma title_from_empty b s : title_from b s = EmptyString <-> s = EmptyString.
Proof. destruct s; simpl; split; congruence. Qed.

Lemma lstrip_title s : lstrip (title s) = title (lstrip s).
Proof.
  unfold title. induction s as [|c s IH]; simpl; [reflexivity|].
  rewrite isspace_upper. destruct (isspace c) eqn:E; [|reflexivity].
  rewrite (isspace_not_cased _ E). exact IH.
Qed.

Lemma rstrip_title_from s : forall b, rstrip (title_from b s) = title_from b (rstrip s).
Proof.
  induction s as [|c s IH]; intros b; simpl; [reflexivity|].
  rewrite IH. fold (recase b c).
  destruct (rstrip s) as [|d r] eqn:E; simpl.
  - rewrite isspace_recase. destruct (isspace c); reflexivity.
  - reflexivity.
Qed.

Lemma strip_title s : strip (title s) = title (strip s).
Proof. unfold strip. rewrite lstrip_title. apply rstrip_title_from. Qed.

Lemma lstrip_trimmed s : trimmed_left (lstrip s).
Proof.
  induction s as [|c s IH]; simpl; [exact I|].
  destruct (isspace c) eqn:E; [exact IH | exact E].
Qed.

Lemma lstrip_id s : trimmed_left s -> lstrip s = s.
Proof. destruct s as [|c s]; simpl; [reflexivity|]. intros ->. reflexivity. Qed.

Lemma rstrip_trimmed s : trimmed_left s -> trimmed_left (rstrip s).
Proof.
  destruct s as [|c s]; simpl; [exact (fun H => H)|]. intros E.
  destruct (rstrip s); [rewrite E|]; exact E.
Qed.

Lemma rstrip_idem s : rstrip (rstrip s) = rstrip s.
Proof.
  induction s as [|c s IH]; simpl; [reflexivity|].
  destruct (rstrip s) as [|d r] eqn:E.
  - destruct (isspace c) eqn:Ec; simpl; [reflexivity|]. rewrite Ec. reflexivity.
  - change (rstrip (String c (String d r))) with
      (match rstrip (String d r) with
       | EmptyString => if isspace c then EmptyString else String c EmptyString
       | r' => String c r' end).
    rewrite IH. reflexivity.
Qed.

Lemma strip_idem s : strip (strip s) = strip s.
Proof.
  unfold strip.
  rewrite (lstrip_id (rstrip (lstrip s))) by apply rstrip_trimmed, lstrip_trimmed.
  apply rstrip_idem.
Qed.

Lemma contains_In l x : contains l x = true <-> In x l.
Proof.
  unfold contains. rewrite existsb_exists. split.
  - intros (y & Hy & E). apply String.eqb_eq in E. subst. exact Hy.
  - intros H. exists x. split; [exact H | apply String.eqb_refl].
Qed.

Lemma contains_false l x : contains l x = false <-> ~ In x l.
Proof.
  rewrite <- contains_In. destruct (contains l x); split; congruence.
Qed.

(** A blank string strips to the empty string. *)
Lemma lstrip_all_space s : all_space s = true -> lstrip s = EmptyString.
Proof.
  induction s as [|c s IH]; simpl; [reflexivity|].
  intros H. apply andb_prop in H as [-> H]. apply IH, H.
Qed.

Lemma strip_all_space s : all_space s = true -> strip s = EmptyString.
Proof. intros H. unfold strip. rewrite (lstrip_all_space _ H). reflexivity. Qed.













End PyStrings.

(** ** Running the form symbolically *)

(** Unfold the script down to the primitive reads and writes. *)
Ltac unfold_script :=
  cbv beta iota zeta delta
      [St.number_input St.text_input_description
       St.text_input_new_category St.selectbox St.form_submit_button
       category_selection submit add_spending
       get_categories_collection_ref get_spendings_collection_ref
       categories_collection_ref spendings_collection_ref
       Firestore.add_category Firestore.add_spending Firestore.resolve
       touch_last_update_time
       set_db set_session_state with_widgets Py.float
       mbind M_bind bind mret M_ret ret raise try_except ask get emit show st_stop
       outcome world_after events
       fst snd andb orb negb
       db session_state user_id widgets app_id auth_ready last_update_time
       categories_docs spendings_docs next_id submit_button now commit_time
       categories_add_error spendings_add_error
       amount_input description_input category_select new_category_input] in *;
  cbn [app sent shown] in *.

(** Split the run on every test the script makes. *)
Ltac run_script :=
  unfold_script;
  repeat (case_match; unfold_script; try discriminate; simplify_eq).

(** Name the three parts of a run of [submit] and take the worlds apart. *)
Ltac open_submit_at c a d s n env w r w' evs E :=
  destruct (submit c a d s n env w) as [[r w'] evs] eqn:E;
  destruct w as [aid [uid ar lut] wd db0 c1 c2];
  destruct env as [t ct sb e1 e2 e3 e4].

Ltac open_submit r w' evs E :=
  match goal with
  | |- context [submit ?c ?a ?d ?s ?n ?env ?w] =>
      open_submit_at c a d s n env w r w' evs E
  | _ : context [submit ?c ?a ?d ?s ?n ?env ?w] |- _ =>
      open_submit_at c a d s n env w r w' evs E
  end.

Lemma sent_app evs1 evs2 : sent (evs1 ++ evs2) = sent evs1 ++ sent evs2.
Proof.
  induction evs1 as [|[x|x] evs1 IH]; cbn; [reflexivity| |exact IH].
  rewrite IH. reflexivity.
Qed.

Lemma shown_app evs1 evs2 : shown (evs1 ++ evs2) = shown evs1 ++ shown evs2.
Proof.
  induction evs1 as [|[x|x] evs1 IH]; cbn; [reflexivity|exact IH|].
  rewrite IH. reflexivity.
Qed.

Lemma str_bool_false s : Py.str_bool s = false <-> s = EmptyString.
Proof. destruct s; cbn; split; congruence. Qed.

Lemma str_bool_true s : Py.str_bool s = true <-> s <> EmptyString.
Proof. destruct s; cbn; split; congruence. Qed.

(** *** The category widgets *)

Lemma category_selection_run categories env w :
  category_selection categories env w
  = (Returned (new_category_name_of categories w, resolved_option categories w),
     w, selection_events categories w).
Proof.
  unfold new_category_name_of, resolved_option, selection_events, normalize.
  unfold category_selection, St.selectbox, St.text_input_new_category, show, emit.
  unfold mbind, M_bind, bind, mret, M_ret, ret, get. cbn [fst snd].
  fold (selected_option categories w).
  destruct (String.eqb (selected_option categories w) _); cbn; [|reflexivity].
  destruct (Py.str_bool _); cbn; [|reflexivity].
  destruct (Py.contains _ _); reflexivity.
Qed.

Lemma sent_selection_events categories w : sent (selection_events categories w) = [].
Proof. unfold selection_events. case_match; reflexivity. Qed.

(** The form is the category widgets followed, when the button was pressed,
    by [submit] on the values of the widgets; the widgets are then reset. *)
Lemma spending_form_run categories env w :
  spending_form categories env w
  = if submit_button env then
      match submit categories (amount_of w)
                   (description_input (widgets w))
                   (resolved_option categories w)
                   (new_category_name_of categories w) env w with
      | (r, w1, evs) =>
          (r, with_widgets default_widgets w1, selection_events categories w ++ evs)
      end
    else (Returned NotSubmitted, w, selection_events categories w).
Proof.
  unfold spending_form, St.form, St.number_input, St.text_input_description,
    St.form_submit_button.
  unfold mbind, M_bind, bind, mret, M_ret, ret, get, ask. cbn [fst snd].
  fold (amount_of w).
  rewrite category_selection_run.
  destruct (submit_button env); cbn.
  - destruct (submit _ _ _ _ _ env w) as [[r w1] evs]. reflexivity.
  - rewrite app_nil_r. reflexivity.
Qed.

(** *** The handler *)

(** What a successful run of [submit] has done, in full. *)
Lemma submit_success categories amount description sel nn env w fc :
  outcome (submit categories amount description sel nn env w)
  = Returned (Success fc) ->
  fc = final_category_of sel nn
  /\ exists cref sref,
    categories_collection_ref w = Some cref
    /\ spendings_collection_ref w = Some sref
    /\ sent (events (submit categories amount description sel nn env w))
       = (if Py.contains categories fc then []
          else [CategoryAdd cref (category_data w fc)])
         ++ [SpendingAdd sref (spending_data w amount description fc)]
    /\ categories_docs (db (world_after (submit categories amount description sel nn env w)))
       = (if Py.contains categories fc then categories_docs (db w)
          else categories_with w cref fc)
    /\ exists id,
        spendings_docs (db (world_after (submit categories amount description sel nn env w)))
        = <[sref := default [] (spendings_docs (db w) !! sref)
                    ++ [spending_doc id env w amount description fc]]>
            (spendings_docs (db w)).
Proof.
  intros H. open_submit r w' evs E.
  unfold category_data, spending_data, spending_doc, categories_with,
    stored_category, final_category_of.
  run_script.
  all: (split; [reflexivity|]); eexists _, _;
    repeat (split; [reflexivity|]); eexists; reflexivity.
Qed.

(** What a run of [submit] that ends in a validation error has done. *)
Lemma submit_validation categories amount description sel nn env w msg :
  outcome (submit categories amount description sel nn env w)
  = Returned (ValidationError msg) ->
  events (submit categories amount description sel nn env w) = [Shown (st_error msg)]
  /\ world_after (submit categories amount description sel nn env w) = w.
Proof.
  intros H. open_submit r w' evs E.
  run_script; auto.
Qed.

(** The first test of the handler (line 161) and nothing else gives the
    message about amount and description. *)
Lemma submit_first_check categories amount description sel nn env w :
  outcome (submit categories amount description sel nn env w)
  = Returned (ValidationError "Please enter both Amount and Description.")
  <-> Py.float_bool amount = false \/ description = EmptyString.
Proof.
  rewrite <- str_bool_false.
  open_submit r w' evs E.
  run_script; split; intros; simplify_eq; auto;
    try (destruct_or!; congruence).
Qed.

(** The tests of lines 163 and 165 fail only on the placeholder and on
    "create new" without a name. *)
Lemma submit_category_checks categories amount description sel nn env w msg :
  Py.float_bool amount = true -> description <> EmptyString ->
  outcome (submit categories amount description sel nn env w)
  = Returned (ValidationError msg) ->
  sel = "Select an existing category"
  \/ sel = "--- Create New Category ---" /\ Py.opt_bool nn = false.
Proof.
  intros Ha Hd H. apply str_bool_true in Hd.
  open_submit r w' evs E.
  run_script; try congruence.
  all: first
    [ left; apply String.eqb_eq; assumption
    | right; split; [apply String.eqb_eq; assumption | first [reflexivity | assumption]] ].
Qed.

(** The categories store after any run of [submit]: untouched, or with one
    more document, whose name is the resolved category and is not in the
    list the form was given. *)
Lemma submit_categories_docs categories amount description sel nn env w :
  categories_docs (db (world_after (submit categories amount description sel nn env w)))
  = categories_docs (db w)
  \/ exists cref,
      categories_collection_ref w = Some cref
      /\ Py.contains categories (final_category_of sel nn) = false
      /\ sel <> "Select an existing category"
      /\ (sel = "--- Create New Category ---" -> Py.opt_bool nn = true)
      /\ categories_docs (db (world_after (submit categories amount description sel nn env w)))
         = categories_with w cref (final_category_of sel nn).
Proof.
  open_submit r w' evs E.
  unfold categories_with, stored_category, final_category_of.
  run_script; auto.
  all: right; eexists; split; [reflexivity|]; split; [reflexivity|];
    split; [apply String.eqb_neq; assumption|]; split; [|reflexivity].
  all: intros Hs; try reflexivity; try assumption.
  all: repeat match goal with
         | H : (_ =? _)%string = false |- _ => apply String.eqb_neq in H
         end; congruence.
Qed.

(** A run of [submit] sends category documents only to the collection of
    the session's user, and only when the resolved name is new. *)
Lemma submit_category_adds categories amount description sel nn env w :
  Py.contains categories (final_category_of sel nn) = true ->
  forallb (fun x => negb (is_category_add x))
          (sent (events (submit categories amount description sel nn env w))) = true.
Proof.
  intros Hc. open_submit r w' evs E.
  unfold final_category_of in Hc.
  run_script; reflexivity.
Qed.

(** *** Normalized names *)

Lemma normalize_idem s : normalize (normalize s) = normalize s.
Proof.
  unfold normalize. rewrite strip_title, strip_idem.
  unfold Py.title. apply title_from_idem.
Qed.

Lemma normalize_blank s : Py.all_space s = true -> normalize s = EmptyString.
Proof. intros H. unfold normalize. rewrite (strip_all_space _ H). reflexivity. Qed.

(** A normalized name is never the placeholder of the select box. *)
Lemma normalize_not_placeholder s : normalize s <> "Select an existing category".
Proof.
  intros H. pose proof (normalize_idem s) as Hi. rewrite H in Hi.
  vm_compute in Hi. discriminate.
Qed.

(** The select box returns one of its options. *)
Lemma selected_option_cases categories w :
  selected_option categories w = "Select an existing category"
  \/ selected_option categories w = "--- Create New Category ---"
  \/ In (selected_option categories w) categories.
Proof.
  unfold selected_option, category_options. cbn [app hd].
  destruct (category_select (widgets w)) as [|n]; [left; reflexivity|].
  cbn [nth]. destruct (Nat.lt_ge_cases n (List.length categories)) as [Hn|Hn].
  - right; right. rewrite app_nth1 by exact Hn. apply nth_In, Hn.
  - rewrite app_nth2 by exact Hn.
    destruct (n - List.length categories)%nat as [|[|k]]; cbn; auto.
Qed.

(** Lines 168-170 leave the selected option as it is. *)
Lemma final_resolved categories w :
  final_category_of (resolved_option categories w) (new_category_name_of categories w)
  = resolved_option categories w.
Proof.
  unfold final_category_of, resolved_option, new_category_name_of.
  destruct (String.eqb (selected_option categories w) _) eqn:Es;
    destruct (Py.str_bool (new_category_input (widgets w))) eqn:En;
    cbn [andb default Py.opt_bool]; rewrite ?Es, ?En; cbn [andb]; try reflexivity.
  destruct (String.eqb (normalize _) _); cbn [andb]; [|reflexivity].
  destruct (Py.str_bool (normalize _)); [|reflexivity].
  apply normalize_idem.
Qed.

(** *** The form *)

(** What a successful run of the form has done, in full. *)
Lemma form_success categories env w fc :
  outcome (spending_form categories env w) = Returned (Success fc) ->
  submit_button env = true
  /\ fc = resolved_option categories w
  /\ exists cref sref,
    categories_collection_ref w = Some cref
    /\ spendings_collection_ref w = Some sref
    /\ sent (events (spending_form categories env w))
       = (if Py.contains categories fc then []
          else [CategoryAdd cref (category_data w fc)])
         ++ [SpendingAdd sref (spending_payload w fc)]
    /\ categories_docs (db (world_after (spending_form categories env w)))
       = (if Py.contains categories fc then categories_docs (db w)
          else categories_with w cref fc)
    /\ exists id,
        spendings_docs (db (world_after (spending_form categories env w)))
        = <[sref := default [] (spendings_docs (db w) !! sref)
                    ++ [stored_spending id env w fc]]> (spendings_docs (db w)).
Proof.
  rewrite spending_form_run.
  destruct (submit_button env); [|discriminate].
  destruct (submit _ _ _ _ _ env w) as [[r w1] evs] eqn:E.
  intros H. cbn in H. subst r.
  pose proof (submit_success categories (amount_of w)
                (description_input (widgets w)) (resolved_option categories w)
                (new_category_name_of categories w) env w fc) as S.
  rewrite E in S. destruct (S eq_refl) as (Hfc & cref & sref & Hc & Hs & Hsent & Hcat & id & Hsp).
  rewrite final_resolved in Hfc. cbn in Hsent, Hcat, Hsp.
  split; [reflexivity|]. split; [exact Hfc|].
  exists cref, sref. split; [exact Hc|]. split; [exact Hs|].
  unfold events, world_after. cbn.
  rewrite sent_app, sent_selection_events. cbn [app].
  split; [exact Hsent|]. split; [exact Hcat|].
  exists id. exact Hsp.
Qed.

(** What a run of the form that ends in a validation error has done. *)
Lemma form_validation categories env w msg :
  outcome (spending_form categories env w) = Returned (ValidationError msg) ->
  submit_button env = true
  /\ sent (events (spending_form categories env w)) = []
  /\ In (st_error msg) (shown (events (spending_form categories env w)))
  /\ world_after (spending_form categories env w) = with_widgets default_widgets w.
Proof.
  rewrite spending_form_run.
  destruct (submit_button env); [|discriminate].
  destruct (submit _ _ _ _ _ env w) as [[r w1] evs] eqn:E.
  intros H. cbn in H. subst r.
  pose proof (submit_validation categories (amount_of w)
                (description_input (widgets w)) (resolved_option categories w)
                (new_category_name_of categories w) env w msg) as V.
  rewrite E in V. destruct (V eq_refl) as [Hev Hw]. cbn in Hev, Hw. subst evs w1.
  unfold events, world_after. cbn.
  rewrite sent_app, shown_app, sent_selection_events. cbn.
  repeat split. apply in_or_app. right. left. reflexivity.
Qed.

(** The message about amount and description is the answer of the form
    exactly when the amount is zero or the description is empty. *)
Lemma form_first_check categories env w :
  submit_button env = true ->
  outcome (spending_form categories env w)
  = Returned (ValidationError "Please enter both Amount and Description.")
  <-> Py.float_bool (amount_of w) = false
      \/ description_input (widgets w) = EmptyString.
Proof.
  intros Hb. rewrite spending_form_run, Hb.
  rewrite <- (submit_first_check categories (amount_of w)
                (description_input (widgets w)) (resolved_option categories w)
                (new_category_name_of categories w) env w).
  destruct (submit _ _ _ _ _ env w) as [[r w1] evs]. reflexivity.
Qed.

(** With valid amount and description, a validation error comes from the
    category widgets: the placeholder is selected, or "create new" is
    selected and no name was typed. *)
Lemma form_category_checks categories env w msg :
  Py.float_bool (amount_of w) = true ->
  description_input (widgets w) <> EmptyString ->
  outcome (spending_form categories env w) = Returned (ValidationError msg) ->
  selected_option categories w = "Select an existing category"
  \/ selected_option categories w = "--- Create New Category ---"
     /\ new_category_input (widgets w) = EmptyString.
Proof.
  intros Ha Hd. rewrite spending_form_run.
  destruct (submit_button env); [|discriminate].
  destruct (submit _ _ _ _ _ env w) as [[r w1] evs] eqn:E.
  intros H. cbn in H. subst r.
  pose proof (submit_category_checks categories (amount_of w)
                (description_input (widgets w)) (resolved_option categories w)
                (new_category_name_of categories w) env w msg Ha Hd) as C.
  rewrite E in C. specialize (C eq_refl).
  unfold resolved_option, new_category_name_of in C.
  destruct (String.eqb (selected_option categories w) _) eqn:Es; cbn in C.
  - apply String.eqb_eq in Es.
    destruct (Py.str_bool (new_category_input (widgets w))) eqn:En.
    + destruct C as [C|[C1 C2]].
      * apply normalize_not_placeholder in C. contradiction.
      * cbn in C2. rewrite C1 in C2. discriminate.
    + right. split; [exact Es | apply str_bool_false, En].
  - destruct C as [C|[C _]]; [left; exact C|].
    apply String.eqb_neq in Es. contradiction.
Qed.

(** ** The claims about a submission *)

(** C3. A successful submit whose resolved category is not in the fetched
    category list issues exactly two writes, in this order: the category
    document with that name, then the spending document. *)
Theorem new_category_written_before_spending categories env w fc :
  outcome (spending_form categories env w) = Returned (Success fc) ->
  ~ In fc categories ->
  exists cref sref,
    sent (events (spending_form categories env w))
    = [CategoryAdd cref {| cat_name := fc; cat_userId := user_id (session_state w) |};
       SpendingAdd sref (spending_payload w fc)].
Proof.
  intros H Hnew. apply contains_false in Hnew.
  destruct (form_success _ _ _ _ H) as (_ & _ & cref & sref & _ & _ & Hsent & _).
  rewrite Hnew in Hsent. exists cref, sref. exact Hsent.
Qed.

Lemma new_category_written_before_spending_witness :
  exists cref sref,
    sent (events (spending_form [] (calm 0 true) (fill five "Coffee" 1 "coffee" fresh_world)))
    = [CategoryAdd cref {| cat_name := "Coffee"; cat_userId := Some "alice" |};
       SpendingAdd sref
         (spending_payload (fill five "Coffee" 1 "coffee" fresh_world) "Coffee")].
Proof.
  apply (new_category_written_before_spending
           [] (calm 0 true) (fill five "Coffee" 1 "coffee" fresh_world) "Coffee").
  - vm_compute. reflexivity.
  - simpl. tauto.
Defined.

(** C4. A successful submit whose resolved category is in the fetched
    category list issues exactly one write, the spending document, and
    leaves the categories collections as they were. *)
Theorem existing_category_only_spending_written categories env w fc :
  outcome (spending_form categories env w) = Returned (Success fc) ->
  In fc categories ->
  (exists sref,
      sent (events (spending_form categories env w))
      = [SpendingAdd sref (spending_payload w fc)])
  /\ categories_docs (db (world_after (spending_form categories env w)))
     = categories_docs (db w).
Proof.
  intros H Hold. apply contains_In in Hold.
  destruct (form_success _ _ _ _ H) as (_ & _ & cref & sref & _ & _ & Hsent & Hcat & _).
  rewrite Hold in Hsent, Hcat. split; [exists sref; exact Hsent | exact Hcat].
Qed.

Lemma existing_category_only_spending_written_witness :
  (exists sref,
      sent (events (spending_form ["Food"] (calm 0 true)
                      (fill twelve_fifty "Lunch" 1 "" fresh_world)))
      = [SpendingAdd sref
           (spending_payload (fill twelve_fifty "Lunch" 1 "" fresh_world) "Food")])
  /\ categories_docs (db (world_after (spending_form ["Food"] (calm 0 true)
                                         (fill twelve_fifty "Lunch" 1 "" fresh_world))))
     = categories_docs (db (fill twelve_fifty "Lunch" 1 "" fresh_world)).
Proof.
  apply (existing_category_only_spending_written
           ["Food"] (calm 0 true) (fill twelve_fifty "Lunch" 1 "" fresh_world) "Food").
  - vm_compute. reflexivity.
  - simpl. tauto.
Defined.



(** The document of that run, written out. *)
Example spending_document_of_lunch :
  sent (events (spending_form ["Food"] (calm 7 true)
                  (fill twelve_fifty " Lunch " 1 "" fresh_world)))
  = [SpendingAdd "artifacts/default-app-id/users/alice/spendings"
       {| sp_amount := twelve_fifty; sp_description := "Lunch"; sp_category := "Food";
          sp_timestamp := SERVER_TIMESTAMP; sp_userId := Some "alice" |}].
Proof. vm_compute. reflexivity. Qed.

(** C8, as the code has it. A submission that ends in a validation error
    sends nothing to Firestore and shows the error on the page; the store,
    the session state and the caches are as before, and the widgets of the
    form are back at their default values (the form is declared with
    clear_on_submit=True). *)
Theorem validation_error_no_write categories env w msg :
  outcome (spending_form categories env w) = Returned (ValidationError msg) ->
  sent (events (spending_form categories env w)) = []
  /\ In (st_error msg) (shown (events (spending_form categories env w)))
  /\ world_after (spending_form categories env w) = with_widgets default_widgets w.
Proof.
  intros H. destruct (form_validation _ _ _ _ H) as (_ & Hs & Hm & Hw). auto.
Qed.

Lemma validation_error_no_write_witness :
  sent (events (spending_form ["Food"] (calm 0 true) (fill five "" 1 "" fresh_world))) = []
  /\ In (st_error "Please enter both Amount and Description.")
        (shown (events (spending_form ["Food"] (calm 0 true)
                          (fill five "" 1 "" fresh_world))))
  /\ world_after (spending_form ["Food"] (calm 0 true) (fill five "" 1 "" fresh_world))
     = with_widgets default_widgets (fill five "" 1 "" fresh_world).
Proof.
  apply (validation_error_no_write
           ["Food"] (calm 0 true) (fill five "" 1 "" fresh_world)
           "Please enter both Amount and Description.").
  vm_compute. reflexivity.
Defined.

(** C8, as stated, fails: the submission below ends in a validation error,
    and the amount 5.0 and the chosen category are gone from the form. *)
Lemma validation_error_clears_form :
  outcome (spending_form ["Food"] (calm 0 true) (fill five "" 1 "" fresh_world))
  = Returned (ValidationError "Please enter both Amount and Description.")
  /\ widgets (world_after (spending_form ["Food"] (calm 0 true)
                             (fill five "" 1 "" fresh_world)))
     <> widgets (fill five "" 1 "" fresh_world).
Proof.
  split; [vm_compute; reflexivity|].
  vm_compute. discriminate.
Qed.

(** C5, as the code has it. The description is tested as typed: the
    message about amount and description is the answer exactly when the
    amount is zero or the description is the empty string. *)
Theorem empty_description_rejected categories env w :
  submit_button env = true ->
  outcome (spending_form categories env w)
  = Returned (ValidationError "Please enter both Amount and Description.")
  <-> Py.float_bool (amount_of w) = false
      \/ description_input (widgets w) = EmptyString.
Proof. apply form_first_check. Qed.

Lemma empty_description_rejected_witness :
  outcome (spending_form ["Food"] (calm 0 true) (fill five "" 1 "" fresh_world))
  = Returned (ValidationError "Please enter both Amount and Description.")
  <-> Py.float_bool (amount_of (fill five "" 1 "" fresh_world)) = false
      \/ description_input (widgets (fill five "" 1 "" fresh_world)) = EmptyString.
Proof.
  apply (empty_description_rejected ["Food"] (calm 0 true) (fill five "" 1 "" fresh_world)).
  reflexivity.
Defined.

(** C5, as stated, fails: a description of three blanks is accepted, and
    the spending is sent with the empty description. *)
Lemma blank_description_accepted :
  Py.str_isspace "   " = true
  /\ outcome (spending_form ["Food"] (calm 0 true) (fill five "   " 1 "" fresh_world))
     = Returned (Success "Food")
  /\ sent (events (spending_form ["Food"] (calm 0 true) (fill five "   " 1 "" fresh_world)))
     = [SpendingAdd "artifacts/default-app-id/users/alice/spendings"
          {| sp_amount := five; sp_description := "";
             sp_category := "Food"; sp_timestamp := SERVER_TIMESTAMP;
             sp_userId := Some "alice" |}].
Proof. repeat split; vm_compute; reflexivity. Qed.

(** C10. With "create new" selected and a new category name made of blanks
    only, the name normalizes to the empty string and the category widgets
    raise no validation error: the only validation error left is the one
    about amount and description. When the run succeeds and the empty
    string is not in the fetched list, a category document named "" and
    then a spending document of category "" are sent. *)
Theorem blank_category_name_accepted categories env w :
  selected_option categories w = "--- Create New Category ---" ->
  Py.str_isspace (new_category_input (widgets w)) = true ->
  normalize (new_category_input (widgets w)) = EmptyString
  /\ (forall msg,
        outcome (spending_form categories env w) = Returned (ValidationError msg) ->
        msg = "Please enter both Amount and Description."
        /\ (Py.float_bool (amount_of w) = false
            \/ description_input (widgets w) = EmptyString))
  /\ (forall fc,
        outcome (spending_form categories env w) = Returned (Success fc) ->
        ~ In EmptyString categories ->
        fc = EmptyString
        /\ exists cref sref,
            sent (events (spending_form categories env w))
            = [CategoryAdd cref {| cat_name := ""; cat_userId := user_id (session_state w) |};
               SpendingAdd sref (spending_payload w "")]).
Proof.
  intros Hsel Hsp. apply andb_prop in Hsp as [Hne Hall].
  pose proof (normalize_blank _ Hall) as Hn.
  split; [exact Hn|]. split.
  - intros msg H.
    destruct (form_validation _ _ _ _ H) as (Hb & _).
    destruct (Py.float_bool (amount_of w)) eqn:Ha.
    + destruct (description_input (widgets w)) as [|c d] eqn:Hd.
      * assert (outcome (spending_form categories env w)
                = Returned (ValidationError "Please enter both Amount and Description."))
          as H' by (apply form_first_check; auto).
        rewrite H in H'. injection H' as ->. auto.
      * exfalso.
        assert (description_input (widgets w) <> EmptyString) as Hd'
            by (rewrite Hd; discriminate).
        destruct (form_category_checks _ _ _ _ Ha Hd' H) as [C|[_ C]].
        -- rewrite Hsel in C. discriminate.
        -- rewrite C in Hne. discriminate.
    + assert (outcome (spending_form categories env w)
              = Returned (ValidationError "Please enter both Amount and Description."))
        as H' by (apply form_first_check; auto).
      rewrite H in H'. injection H' as ->. auto.
  - intros fc H Hnew. apply contains_false in Hnew.
    destruct (form_success _ _ _ _ H) as (_ & Hfc & cref & sref & _ & _ & Hsent & _).
    unfold resolved_option in Hfc. rewrite Hsel, Hne, Hn in Hfc. cbn in Hfc. subst fc.
    rewrite Hnew in Hsent. split; [reflexivity|]. exists cref, sref. exact Hsent.
Qed.

Lemma blank_category_name_accepted_witness :
  normalize (new_category_input (widgets (fill five "Tea" 1 "  " fresh_world))) = EmptyString
  /\ (forall msg,
        outcome (spending_form [] (calm 0 true) (fill five "Tea" 1 "  " fresh_world))
        = Returned (ValidationError msg) ->
        msg = "Please enter both Amount and Description."
        /\ (Py.float_bool (amount_of (fill five "Tea" 1 "  " fresh_world)) = false
            \/ description_input (widgets (fill five "Tea" 1 "  " fresh_world)) = EmptyString))
  /\ (forall fc,
        outcome (spending_form [] (calm 0 true) (fill five "Tea" 1 "  " fresh_world))
        = Returned (Success fc) ->
        ~ In EmptyString [] ->
        fc = EmptyString
        /\ exists cref sref,
            sent (events (spending_form [] (calm 0 true) (fill five "Tea" 1 "  " fresh_world)))
            = [CategoryAdd cref
                 {| cat_name := "";
                    cat_userId := user_id (session_state (fill five "Tea" 1 "  " fresh_world)) |};
               SpendingAdd sref (spending_payload (fill five "Tea" 1 "  " fresh_world) "")]).
Proof.
  apply (blank_category_name_accepted [] (calm 0 true) (fill five "Tea" 1 "  " fresh_world)).
  - vm_compute. reflexivity.
  - vm_compute. reflexivity.
Defined.

(** The run of the witness of C10 does succeed, with these two writes. *)
Example blank_category_name_run :
  outcome (spending_form [] (calm 0 true) (fill five "Tea" 1 "  " fresh_world))
  = Returned (Success "")
  /\ sent (events (spending_form [] (calm 0 true) (fill five "Tea" 1 "  " fresh_world)))
     = [CategoryAdd "artifacts/default-app-id/users/alice/categories"
          {| cat_name := ""; cat_userId := Some "alice" |};
        SpendingAdd "artifacts/default-app-id/users/alice/spendings"
          {| sp_amount := five; sp_description := "Tea"; sp_category := "";
             sp_timestamp := SERVER_TIMESTAMP; sp_userId := Some "alice" |}].
Proof. split; vm_compute; reflexivity. Qed.

(** ** Reading the categories *)

#[local] Instance string_le_trans : Transitive String.le.
Proof. apply String.le_po. Qed.

(** The order is by code point: "B" comes before "a". *)
Example sorted_is_case_sensitive :
  Py.sorted ["b"; "a"; "B"; "ab"] = ["B"; "a"; "ab"; "b"].
Proof. vm_compute. reflexivity. Qed.

(** What [fetch_categories_body] does, case by case. *)
Lemma fetch_categories_run uid ts env w :
  fetch_categories_body uid ts env w
  = match categories_collection_ref w with
    | None => (Returned [], w, [])
    | Some ref =>
        match categories_get_error env with
        | Some e =>
            (Returned [], w, [Shown (st_error ("Error fetching categories: " +:+ e))])
        | None => (Returned (Py.sorted (category_names (db w) ref)), w, [])
        end
    end.
Proof.
  unfold fetch_categories_body, get_categories_collection_ref, Firestore.get_categories,
    try_except, show, emit, category_names.
  unfold mbind, M_bind, bind, mret, M_ret, ret, get. cbn [fst snd].
  destruct (categories_collection_ref w); [|reflexivity].
  destruct (categories_get_error env); reflexivity.
Qed.


(** ** Category records stay distinct *)

Lemma categories_normalized_no_duplicate d :
  categories_normalized d -> no_duplicate_categories d.
Proof.
  intros H ref. destruct (H ref) as [Hnd Hfix].
  replace (map normalize (category_names d ref)) with (category_names d ref);
    [exact Hnd|].
  rewrite <- (map_id (category_names d ref)) at 1.
  apply map_ext_in. intros n Hn. symmetry. apply Hfix, Hn.
Qed.

(** The names of a collection after a document was added to [cref]. *)
Lemma category_names_with w cref fc ref :
  map cdoc_name (default [] (categories_with w cref fc !! ref))
  = if decide (cref = ref) then category_names (db w) cref ++ [fc]
    else category_names (db w) ref.
Proof.
  unfold categories_with, category_names.
  destruct (decide (cref = ref)) as [->|Hne].
  - rewrite lookup_insert_eq. cbn. rewrite map_app. reflexivity.
  - rewrite lookup_insert_ne by exact Hne. reflexivity.
Qed.

(** The category a run resolves to, when it is not already listed and is
    neither placeholder nor a nameless "create new", is a normalized name. *)
Lemma resolved_new_is_normalized categories w :
  Py.contains categories (resolved_option categories w) = false ->
  resolved_option categories w <> "Select an existing category" ->
  (resolved_option categories w = "--- Create New Category ---" ->
   Py.opt_bool (new_category_name_of categories w) = true) ->
  normalize (resolved_option categories w) = resolved_option categories w.
Proof.
  unfold resolved_option, new_category_name_of.
  destruct (String.eqb (selected_option categories w) _) eqn:Es; cbn [andb].
  - destruct (Py.str_bool (new_category_input (widgets w))) eqn:En.
    + intros _ _ _. apply normalize_idem.
    + intros _ _ Hc. apply String.eqb_eq in Es. specialize (Hc Es).
      cbn in Hc. congruence.
  - intros Hc Hs _. apply String.eqb_neq in Es. apply contains_false in Hc.
    destruct (selected_option_cases categories w) as [C|[C|C]]; contradiction.
Qed.

(** One run of the form on an up-to-date list keeps the stored names
    normalized and distinct. *)
Lemma form_keeps_normalized categories env w :
  up_to_date categories w ->
  categories_normalized (db w) ->
  categories_normalized (db (world_after (spending_form categories env w))).
Proof.
  intros Hup Hinv. rewrite spending_form_run.
  destruct (submit_button env); [|exact Hinv].
  pose proof (submit_categories_docs categories (amount_of w)
                (description_input (widgets w)) (resolved_option categories w)
                (new_category_name_of categories w) env w) as D.
  destruct (submit _ _ _ _ _ env w) as [[r w1] evs]. cbn in D |- *.
  unfold world_after. cbn [fst snd].
  destruct D as [D|(cref & Href & Hnew & Hsel & Hcreate & D)];
    intros ref; unfold category_names; cbn [with_widgets db]; rewrite D;
    [apply Hinv|].
  rewrite final_resolved in *.
  rewrite category_names_with.
  destruct (decide (cref = ref)) as [<-|_]; [|apply Hinv].
  destruct (Hinv cref) as [Hnd Hfix].
  assert (~ In (resolved_option categories w) (category_names (db w) cref)) as Hfresh.
  { intros Hin. apply contains_false in Hnew. apply Hnew, Hup.
    unfold current_categories. rewrite Href. exact Hin. }
  split.
  - apply NoDup_app. split; [exact Hnd|]. split; [|apply NoDup_singleton].
    intros x Hx Hx'. apply list_elem_of_singleton in Hx'. subst x.
    apply Hfresh, list_elem_of_In, Hx.
  - intros n Hn. apply in_app_or in Hn as [Hn|[<-|[]]]; [apply Hfix, Hn|].
    apply resolved_new_is_normalized; assumption.
Qed.

Lemma reachable_normalized w : reachable w -> categories_normalized (db w).
Proof.
  induction 1 as [w Hempty|w v _ IH|w s _ IH|w env categories _ IH _ Hup].
  - intros ref. unfold category_names. rewrite Hempty, lookup_empty. cbn.
    split; [apply NoDup_nil_2 | intros n []].
  - exact IH.
  - exact IH.
  - apply form_keeps_normalized; assumption.
Qed.

(** C2, as the code has it. In every world reached from an empty store by
    submissions of category names of ASCII text that were given an
    up-to-date category list, no collection holds two category documents
    with the same normalized name; and when "create new" is selected with
    such a name whose normalized form is in the list, the run sends no
    category document, leaves the categories as they were, and resolves to
    that existing category. *)
Theorem categories_distinct_when_up_to_date w :
  reachable w ->
  no_duplicate_categories (db w)
  /\ forall categories env,
      selected_option categories w = "--- Create New Category ---" ->
      new_category_input (widgets w) <> EmptyString ->
      Py.isascii (new_category_input (widgets w)) = true ->
      In (normalize (new_category_input (widgets w))) categories ->
      forallb (fun x => negb (is_category_add x))
              (sent (events (spending_form categories env w))) = true
      /\ categories_docs (db (world_after (spending_form categories env w)))
         = categories_docs (db w)
      /\ forall fc,
          outcome (spending_form categories env w) = Returned (Success fc) ->
          fc = normalize (new_category_input (widgets w)).
Proof.
  intros Hr. split.
  { apply categories_normalized_no_duplicate, reachable_normalized, Hr. }
  intros categories env Hsel Hne _ Hin.
  apply str_bool_true in Hne. apply contains_In in Hin.
  assert (resolved_option categories w = normalize (new_category_input (widgets w)))
    as Hres by (unfold resolved_option; rewrite Hsel, Hne; reflexivity).
  split; [|split].
  - rewrite spending_form_run. destruct (submit_button env).
    + pose proof (submit_category_adds categories (amount_of w)
                    (description_input (widgets w)) (resolved_option categories w)
                    (new_category_name_of categories w) env w) as A.
      destruct (submit _ _ _ _ _ env w) as [[r w1] evs].
      rewrite final_resolved, Hres in A. specialize (A Hin).
      unfold events in *. cbn [snd] in *.
      rewrite sent_app, sent_selection_events. exact A.
    + unfold events. cbn [snd]. rewrite sent_selection_events. reflexivity.
  - rewrite spending_form_run. destruct (submit_button env); [|reflexivity].
    pose proof (submit_categories_docs categories (amount_of w)
                  (description_input (widgets w)) (resolved_option categories w)
                  (new_category_name_of categories w) env w) as D.
    destruct (submit _ _ _ _ _ env w) as [[r w1] evs].
    unfold world_after in *. cbn [fst snd with_widgets db] in *.
    destruct D as [D|(cref & _ & Hnew & _)]; [exact D|].
    rewrite final_resolved, Hres in Hnew. congruence.
  - intros fc H. destruct (form_success _ _ _ _ H) as (_ & Hfc & _).
    rewrite Hfc. exact Hres.
Qed.

(** After "tea" and "food" were submitted, the store holds "Tea" and
    "Food"; a third submission, of " tea " under "create new", sends no
    category document, leaves the categories as they are and records the
    spending under "Tea". *)
Lemma categories_distinct_when_up_to_date_witness :
  category_names (db tea_again) alice_categories = ["Tea"; "Food"]
  /\ no_duplicate_categories (db tea_again)
  /\ sent (events (spending_form ["Food"; "Tea"] (calm 2 true) tea_again))
     = [SpendingAdd alice_spendings
          {| sp_amount := five; sp_description := "Chai"; sp_category := "Tea";
             sp_timestamp := SERVER_TIMESTAMP; sp_userId := Some "alice" |}]
  /\ forallb (fun x => negb (is_category_add x))
             (sent (events (spending_form ["Food"; "Tea"] (calm 2 true) tea_again))) = true
  /\ categories_docs (db (world_after (spending_form ["Food"; "Tea"] (calm 2 true) tea_again)))
     = categories_docs (db tea_again)
  /\ forall fc,
      outcome (spending_form ["Food"; "Tea"] (calm 2 true) tea_again)
      = Returned (Success fc) ->
      fc = "Tea".
Proof.
  assert (reachable tea_again) as Hr.
  { apply reachable_fill, reachable_submit;
      [apply reachable_fill, reachable_submit;
       [apply reachable_fill, reachable_start; reflexivity
       |reflexivity
       |intros n; vm_compute; tauto]
      |reflexivity
      |intros n; vm_compute; tauto]. }
  destruct (categories_distinct_when_up_to_date tea_again Hr) as [Hd Hdedup].
  split; [vm_compute; reflexivity|]. split; [exact Hd|].
  split; [vm_compute; reflexivity|].
  apply (Hdedup ["Food"; "Tea"] (calm 2 true)).
  - reflexivity.
  - discriminate.
  - reflexivity.
  - vm_compute. auto.
Defined.

(** C2, as stated, fails. Two runs of the page lead from the empty store to
    a store with two category documents named "Food": in the second run the
    read of the categories fails, [fetch_categories_body] answers the empty list,
    and the name typed in is taken for a new one. *)
Lemma failed_fetch_duplicates_category :
  reachable_by_script after_failed_fetch
  /\ category_names (db after_failed_fetch) alice_categories = ["Food"; "Food"]
  /\ ~ no_duplicate_categories (db after_failed_fetch).
Proof.
  split; [|split].
  - unfold after_failed_fetch, after_first_run.
    apply script_run, script_fill, script_run, script_fill, script_start; reflexivity.
  - vm_compute. reflexivity.
  - intros H. specialize (H alice_categories).
    assert (map normalize (category_names (db after_failed_fetch) alice_categories)
            = ["Food"; "Food"]) as E by (vm_compute; reflexivity).
    rewrite E in H. apply NoDup_cons in H as [H _]. apply H. left.
Qed.

(** The same store is reached without any failure when the second run comes
    within the 60 seconds of the cache: both parameters of
    [fetch_categories] start with an underscore, so [st.cache_data] leaves
    them out of the key, and the new [last_update_time] does not make the
    call miss the entry stored by the first run. *)
Example stale_cache_duplicates_category :
  reachable_by_script after_quick_run
  /\ outcome (fetch_categories (Some "alice") (Some 0) (calm 10 true) after_first_run)
     = Returned []
  /\ category_names (db after_first_run) alice_categories = ["Food"]
  /\ category_names (db after_quick_run) alice_categories = ["Food"; "Food"].
Proof.
  repeat split; try (vm_compute; reflexivity).
  unfold after_quick_run, after_first_run.
  apply script_run, script_fill, script_run, script_fill, script_start; reflexivity.
Qed.

(** A call that misses the cache runs [fetch_categories_body]. *)
Lemma cached_fetch_categories_miss uid ts env w :
  fetch_categories_cache w = [] ->
  outcome (fetch_categories uid ts env w)
  = outcome (fetch_categories_body uid ts env w).
Proof.
  intros Hc. unfold fetch_categories, St.cache_data. rewrite Hc. cbn.
  destruct (fetch_categories_body uid ts env w) as [[[v|e] w1] evs]; reflexivity.
Qed.

(** * Further properties of the script *)

(** ** More about the handler *)

(** A run of [submit] changes neither the user nor the widgets nor the
    caches; the time of the last update is the old one or the time of the
    run. *)
Lemma submit_keeps_session categories amount description sel nn env w :
  app_id (world_after (submit categories amount description sel nn env w)) = app_id w
  /\ user_id (session_state (world_after (submit categories amount description sel nn env w)))
     = user_id (session_state w)
  /\ auth_ready (session_state (world_after (submit categories amount description sel nn env w)))
     = auth_ready (session_state w)
  /\ widgets (world_after (submit categories amount description sel nn env w)) = widgets w
  /\ fetch_categories_cache (world_after (submit categories amount description sel nn env w))
     = fetch_categories_cache w
  /\ fetch_spendings_cache (world_after (submit categories amount description sel nn env w))
     = fetch_spendings_cache w.
Proof.
  open_submit r w' evs E.
  run_script; cbn; auto 10.
Qed.

(** The writes of any run of [submit]. *)
Lemma submit_sent_shape categories amount description sel nn env w :
  sent (events (submit categories amount description sel nn env w)) = []
  \/ (exists cref,
        categories_collection_ref w = Some cref
        /\ Py.contains categories (final_category_of sel nn) = false
        /\ sent (events (submit categories amount description sel nn env w))
           = [CategoryAdd cref (category_data w (final_category_of sel nn))])
  \/ (exists sref,
        spendings_collection_ref w = Some sref
        /\ Py.contains categories (final_category_of sel nn) = true
        /\ sent (events (submit categories amount description sel nn env w))
           = [SpendingAdd sref
                (spending_data w amount description (final_category_of sel nn))])
  \/ (exists cref sref,
        categories_collection_ref w = Some cref
        /\ spendings_collection_ref w = Some sref
        /\ Py.contains categories (final_category_of sel nn) = false
        /\ sent (events (submit categories amount description sel nn env w))
           = [CategoryAdd cref (category_data w (final_category_of sel nn));
              SpendingAdd sref
                (spending_data w amount description (final_category_of sel nn))]).
Proof.
  open_submit r w' evs E.
  unfold category_data, spending_data, final_category_of.
  run_script; auto.
  all: first
    [ right; left; eexists; repeat split; reflexivity
    | right; right; left; eexists; repeat split; reflexivity
    | right; right; right; eexists _, _; repeat split; reflexivity ].
Qed.

(** A spending document is stored exactly by the runs that succeed. *)
Lemma submit_spendings_docs categories amount description sel nn env w :
  (forall fc, outcome (submit categories amount description sel nn env w)
              <> Returned (Success fc)) ->
  spendings_docs (db (world_after (submit categories amount description sel nn env w)))
  = spendings_docs (db w).
Proof.
  intros H. open_submit r w' evs E.
  run_script; auto.
  all: exfalso; eapply H; reflexivity.
Qed.

(** The time of the last update after a run that succeeds. *)
Lemma submit_success_touches categories amount description sel nn env w fc :
  outcome (submit categories amount description sel nn env w) = Returned (Success fc) ->
  last_update_time (session_state (world_after (submit categories amount description sel nn env w)))
  = Some (now env).
Proof.
  intros H. open_submit r w' evs E.
  run_script; reflexivity.
Qed.

(** What a run of [submit] that ends in a store error has done. *)
Lemma submit_store_error categories amount description sel nn env w e :
  outcome (submit categories amount description sel nn env w) = Returned (StoreError e) ->
  In (st_error ("Error adding spending: " +:+ e))
     (shown (events (submit categories amount description sel nn env w)))
  /\ ((categories_add_error env = Some e
       /\ Py.contains categories (final_category_of sel nn) = false
       /\ (exists cref,
              sent (events (submit categories amount description sel nn env w))
              = [CategoryAdd cref (category_data w (final_category_of sel nn))])
       /\ world_after (submit categories amount description sel nn env w) = w)
      \/ (spendings_add_error env = Some e
          /\ (Py.contains categories (final_category_of sel nn) = false ->
              categories_add_error env = None)
          /\ (exists sref before,
                 sent (events (submit categories amount description sel nn env w))
                 = before ++ [SpendingAdd sref
                                (spending_data w amount description
                                   (final_category_of sel nn))])
          /\ categories_docs (db (world_after (submit categories amount description sel nn env w)))
             = match categories_collection_ref w with
               | Some cref =>
                   if Py.contains categories (final_category_of sel nn)
                   then categories_docs (db w)
                   else categories_with w cref (final_category_of sel nn)
               | None => categories_docs (db w)
               end)).
Proof.
  intros H. open_submit r w' evs E.
  unfold category_data, spending_data, final_category_of, categories_with,
    stored_category.
  run_script.
  all: split; [cbn; auto 10|].
  all: first
    [ left; repeat split; try reflexivity; eexists; reflexivity
    | right; (split; [reflexivity|]); (split; [intros; congruence|]);
      split; [first [eexists _, []; reflexivity | eexists _, [_]; reflexivity]
             | reflexivity] ].
Qed.

(** A run of [submit] with acceptable values, by a user who is signed in. *)
Lemma submit_valid_outcome categories amount description sel nn env w :
  Py.float_bool amount = true ->
  description <> EmptyString ->
  sel <> "Select an existing category" ->
  (sel = "--- Create New Category ---" -> Py.opt_bool nn = true) ->
  Py.opt_bool (user_id (session_state w)) = true ->
  outcome (submit categories amount description sel nn env w)
  = match (if Py.contains categories (final_category_of sel nn) then None
           else categories_add_error env), spendings_add_error env with
    | Some e, _ => Returned (StoreError e)
    | None, Some e => Returned (StoreError e)
    | None, None => Returned (Success (final_category_of sel nn))
    end.
Proof.
  intros Ha Hd Hs Hc Hu. apply str_bool_true in Hd.
  apply String.eqb_neq in Hs.
  assert (String.eqb sel "--- Create New Category ---" && negb (Py.opt_bool nn) = false)
    as Hc'.
  { destruct (String.eqb sel "--- Create New Category ---") eqn:Ec; [|reflexivity].
    apply String.eqb_eq in Ec. rewrite (Hc Ec). reflexivity. }
  clear Hc.
  open_submit r w' evs E.
  unfold final_category_of.
  run_script; cbn in *; try congruence.
Qed.

(** No exception leaves [submit]. *)
Lemma submit_returns categories amount description sel nn env w :
  exists r, outcome (submit categories amount description sel nn env w) = Returned r.
Proof.
  open_submit r w' evs E.
  run_script; eexists; reflexivity.
Qed.

(** The messages of the tests of lines 163 and 165. *)
Lemma submit_category_messages categories amount description sel nn env w :
  Py.float_bool amount = true ->
  description <> EmptyString ->
  (sel = "Select an existing category" ->
   outcome (submit categories amount description sel nn env w)
   = Returned (ValidationError "Please select or create a category."))
  /\ (sel = "--- Create New Category ---" -> Py.opt_bool nn = false ->
      outcome (submit categories amount description sel nn env w)
      = Returned (ValidationError "Please enter a name for the new category.")).
Proof.
  intros Ha Hd. apply str_bool_true in Hd.
  split.
  - intros ->. unfold submit. rewrite Ha, Hd. reflexivity.
  - intros -> Hn. unfold submit. rewrite Ha, Hd, Hn. reflexivity.
Qed.

(** ** More about the form *)

Lemma form_pressed categories env w :
  submit_button env = true ->
  outcome (spending_form categories env w) = outcome (form_submit categories env w)
  /\ world_after (spending_form categories env w)
     = with_widgets default_widgets (world_after (form_submit categories env w))
  /\ events (spending_form categories env w)
     = selection_events categories w ++ events (form_submit categories env w).
Proof.
  intros Hb. rewrite spending_form_run, Hb. unfold form_submit.
  destruct (submit _ _ _ _ _ env w) as [[r w1] evs]. auto.
Qed.

Lemma form_not_pressed categories env w :
  submit_button env = false ->
  spending_form categories env w
  = (Returned NotSubmitted, w, selection_events categories w).
Proof. intros Hb. rewrite spending_form_run, Hb. reflexivity. Qed.

Lemma form_sent categories env w :
  sent (events (spending_form categories env w))
  = if submit_button env then sent (events (form_submit categories env w)) else [].
Proof.
  destruct (submit_button env) eqn:Hb.
  - destruct (form_pressed categories env w Hb) as (_ & _ & ->).
    rewrite sent_app, sent_selection_events. reflexivity.
  - rewrite form_not_pressed by exact Hb. apply sent_selection_events.
Qed.

Lemma form_db categories env w :
  db (world_after (spending_form categories env w))
  = if submit_button env then db (world_after (form_submit categories env w)) else db w.
Proof.
  destruct (submit_button env) eqn:Hb.
  - destruct (form_pressed categories env w Hb) as (_ & -> & _). reflexivity.
  - rewrite form_not_pressed by exact Hb. reflexivity.
Qed.

(** ** The amount *)

(** A number of at least 0.01 is neither zero nor negative. *)
Lemma at_least_min_value_positive x :
  SFleb min_value x = true -> SFleb x zero = false /\ Py.float_bool x = true.
Proof.
  destruct x as [s|s| |s m e]; try destruct s; cbn; intros H;
    try discriminate; split; reflexivity.
Qed.

Lemma amount_of_at_least_min_value w : SFleb min_value (amount_of w) = true.
Proof.
  unfold amount_of. destruct (SFleb min_value (amount_input (widgets w))) eqn:E;
    [exact E | reflexivity].
Qed.

(** C1, as the code has it. The amount widget hands the handler the entry
    of the user when it is at least 0.01 and 0.01 otherwise: no amount that
    is zero or less reaches the test of line 161, every spending the form
    sends carries the amount of the widget, and the message about amount and
    description is the answer to exactly the empty descriptions. *)
Theorem amount_never_zero_or_less categories env w :
  St.number_input min_value env w = (Returned (amount_of w), w, [])
  /\ SFleb min_value (amount_of w) = true
  /\ SFleb (amount_of w) zero = false
  /\ (forall ref d,
        In (SpendingAdd ref d) (sent (events (spending_form categories env w))) ->
        sp_amount d = amount_of w)
  /\ (submit_button env = true ->
      (outcome (spending_form categories env w)
       = Returned (ValidationError "Please enter both Amount and Description.")
       <-> description_input (widgets w) = EmptyString)).
Proof.
  pose proof (amount_of_at_least_min_value w) as Hmin.
  destruct (at_least_min_value_positive _ Hmin) as [Hpos Hbool].
  split; [reflexivity|]. split; [exact Hmin|]. split; [exact Hpos|]. split.
  - intros ref d Hin. rewrite form_sent in Hin.
    destruct (submit_button env); [|destruct Hin].
    unfold form_submit in Hin.
    destruct (submit_sent_shape categories (amount_of w) (description_input (widgets w))
                (resolved_option categories w) (new_category_name_of categories w) env w)
      as [H|[(c & _ & _ & H)|[(r & _ & _ & H)|(c & r & _ & _ & _ & H)]]];
      rewrite H in Hin; cbn in Hin.
    + destruct Hin.
    + destruct Hin as [Hin|[]]. discriminate.
    + destruct Hin as [Hin|[]]. injection Hin as _ <-. reflexivity.
    + destruct Hin as [Hin|[Hin|[]]]; [discriminate|]. injection Hin as _ <-. reflexivity.
  - intros Hb. rewrite (form_first_check categories env w Hb). split.
    + intros [H|H]; [congruence | exact H].
    + intros H. right. exact H.
Qed.

(** C1, as stated, fails: an entry of -5.0 is not answered by a validation
    error. The widget refuses the entry and stays at 0.01, the run succeeds
    and a spending of 0.01 is sent. *)
Lemma amount_below_minimum_not_rejected :
  SFleb minus_five zero = true
  /\ amount_input (widgets (fill minus_five "Refund" 1 "" fresh_world)) = minus_five
  /\ outcome (spending_form ["Food"] (calm 0 true) (fill minus_five "Refund" 1 "" fresh_world))
     = Returned (Success "Food")
  /\ sent (events (spending_form ["Food"] (calm 0 true)
                     (fill minus_five "Refund" 1 "" fresh_world)))
     = [SpendingAdd "artifacts/default-app-id/users/alice/spendings"
          {| sp_amount := min_value; sp_description := "Refund";
             sp_category := "Food"; sp_timestamp := SERVER_TIMESTAMP;
             sp_userId := Some "alice" |}].
Proof. repeat split; vm_compute; reflexivity. Qed.

(** Acceptable values of the widgets are acceptable arguments of [submit]. *)
Lemma acceptable_resolved categories w :
  acceptable categories w ->
  resolved_option categories w <> "Select an existing category"
  /\ (resolved_option categories w = "--- Create New Category ---" ->
      Py.opt_bool (new_category_name_of categories w) = true).
Proof.
  intros (_ & _ & Hsel & Hnew).
  unfold resolved_option, new_category_name_of.
  destruct (String.eqb (selected_option categories w) "--- Create New Category ---")
    eqn:Es; cbn [andb].
  - apply String.eqb_eq in Es. apply Hnew, str_bool_true in Es. rewrite Es.
    split; [apply normalize_not_placeholder|].
    intros ->. reflexivity.
  - apply String.eqb_neq in Es. split; [exact Hsel | contradiction].
Qed.

(** X1. A submission with acceptable values by a signed-in user, when
    Firestore accepts the writes, succeeds, and its category is the selected
    one or the normalized new name. *)
Theorem valid_submission_succeeds categories env w :
  submit_button env = true ->
  acceptable categories w ->
  Py.opt_bool (user_id (session_state w)) = true ->
  categories_add_error env = None ->
  spendings_add_error env = None ->
  outcome (spending_form categories env w)
  = Returned (Success (resolved_option categories w)).
Proof.
  intros Hb Hok Hu Hc Hs.
  destruct (form_pressed categories env w Hb) as (-> & _).
  destruct (acceptable_resolved _ _ Hok) as [Hp Hn].
  destruct Hok as (Ha & Hd & _).
  unfold form_submit.
  rewrite (submit_valid_outcome categories _ _ _ _ env w Ha Hd Hp Hn Hu).
  rewrite final_resolved, Hc, Hs.
  destruct (Py.contains categories (resolved_option categories w)); reflexivity.
Qed.

Lemma valid_submission_succeeds_witness :
  outcome (spending_form ["Food"] (calm 0 true) (fill five "Lunch" 2 " take away " fresh_world))
  = Returned (Success
                (resolved_option ["Food"] (fill five "Lunch" 2 " take away " fresh_world))).
Proof.
  apply valid_submission_succeeds; try reflexivity.
  repeat split; vm_compute; congruence.
Defined.

(** X2. The two writes are not atomic: when the resolved category is new,
    the category is stored and the spending write then fails, the run ends
    in a store error with the category document kept and no spending
    stored. *)
Theorem category_kept_when_spending_fails categories env w e :
  submit_button env = true ->
  acceptable categories w ->
  Py.opt_bool (user_id (session_state w)) = true ->
  ~ In (resolved_option categories w) categories ->
  categories_add_error env = None ->
  spendings_add_error env = Some e ->
  outcome (spending_form categories env w) = Returned (StoreError e)
  /\ In (st_error ("Error adding spending: " +:+ e))
        (shown (events (spending_form categories env w)))
  /\ (exists cref,
         categories_collection_ref w = Some cref
         /\ categories_docs (db (world_after (spending_form categories env w)))
            = categories_with w cref (resolved_option categories w))
  /\ spendings_docs (db (world_after (spending_form categories env w)))
     = spendings_docs (db w).
Proof.
  intros Hb Hok Hu Hnew Hc Hs. apply contains_false in Hnew.
  destruct (form_pressed categories env w Hb) as (Ho & Hw & He).
  destruct (acceptable_resolved _ _ Hok) as [Hp Hn].
  destruct Hok as (Ha & Hd & _).
  assert (outcome (form_submit categories env w) = Returned (StoreError e)) as Hout.
  { unfold form_submit.
    rewrite (submit_valid_outcome categories _ _ _ _ env w Ha Hd Hp Hn Hu).
    rewrite final_resolved, Hnew, Hc, Hs. reflexivity. }
  rewrite Ho, Hw, He. split; [exact Hout|].
  destruct (submit_store_error categories _ _ _ _ env w e Hout) as [Hm Hcase].
  fold (form_submit categories env w) in Hm, Hcase.
  rewrite final_resolved in Hcase.
  split; [rewrite shown_app; apply in_or_app; right; exact Hm|].
  destruct Hcase as [(Hc' & _)|(_ & _ & _ & Hdocs)]; [congruence|].
  split.
  - unfold categories_collection_ref in *.
    destruct (user_id (session_state w)) as [u|]; [|discriminate].
    cbn in Hu. rewrite Hu in *. rewrite Hnew in Hdocs.
    eexists. split; [reflexivity|]. exact Hdocs.
  - apply submit_spendings_docs. intros fc H.
    unfold form_submit in Hout. rewrite Hout in H. discriminate.
Qed.

Lemma category_kept_when_spending_fails_witness :
  outcome (spending_form [] (spendings_unwritable 0 true)
             (fill five "Lunch" 1 "food" fresh_world))
  = Returned (StoreError "deadline exceeded")
  /\ In (st_error ("Error adding spending: " +:+ "deadline exceeded"))
        (shown (events (spending_form [] (spendings_unwritable 0 true)
                          (fill five "Lunch" 1 "food" fresh_world))))
  /\ (exists cref,
         categories_collection_ref (fill five "Lunch" 1 "food" fresh_world) = Some cref
         /\ categories_docs (db (world_after (spending_form [] (spendings_unwritable 0 true)
                                                (fill five "Lunch" 1 "food" fresh_world))))
            = categories_with (fill five "Lunch" 1 "food" fresh_world) cref
                (resolved_option [] (fill five "Lunch" 1 "food" fresh_world)))
  /\ spendings_docs (db (world_after (spending_form [] (spendings_unwritable 0 true)
                                        (fill five "Lunch" 1 "food" fresh_world))))
     = spendings_docs (db (fill five "Lunch" 1 "food" fresh_world)).
Proof.
  apply category_kept_when_spending_fails; try reflexivity.
  - repeat split; vm_compute; congruence.
  - simpl. tauto.
Defined.

(** X3. When the resolved category is new and the category write fails, the
    run stops there: the spending write is not attempted, nothing is stored,
    the session state is as before and the error is shown. *)
Theorem failed_category_add_stops categories env w e :
  submit_button env = true ->
  acceptable categories w ->
  Py.opt_bool (user_id (session_state w)) = true ->
  ~ In (resolved_option categories w) categories ->
  categories_add_error env = Some e ->
  outcome (spending_form categories env w) = Returned (StoreError e)
  /\ (exists cref,
         sent (events (spending_form categories env w))
         = [CategoryAdd cref (category_data w (resolved_option categories w))])
  /\ In (st_error ("Error adding spending: " +:+ e))
        (shown (events (spending_form categories env w)))
  /\ world_after (spending_form categories env w) = with_widgets default_widgets w.
Proof.
  intros Hb Hok Hu Hnew Hc. apply contains_false in Hnew.
  rewrite form_sent, Hb.
  destruct (form_pressed categories env w Hb) as (Ho & Hw & He).
  destruct (acceptable_resolved _ _ Hok) as [Hp Hn].
  destruct Hok as (Ha & Hd & _).
  assert (outcome (form_submit categories env w) = Returned (StoreError e)) as Hout.
  { unfold form_submit.
    rewrite (submit_valid_outcome categories _ _ _ _ env w Ha Hd Hp Hn Hu).
    rewrite final_resolved, Hnew, Hc. reflexivity. }
  rewrite Ho, Hw, He. split; [exact Hout|].
  destruct (submit_store_error categories _ _ _ _ env w e Hout) as [Hm Hcase].
  fold (form_submit categories env w) in Hm, Hcase.
  rewrite final_resolved in Hcase.
  destruct Hcase as [(_ & _ & Hsent & Hsame)|(_ & Hno & _)].
  - split; [exact Hsent|]. split; [|rewrite Hsame; reflexivity].
    rewrite shown_app. apply in_or_app. right. exact Hm.
  - specialize (Hno Hnew). congruence.
Qed.

Lemma failed_category_add_stops_witness :
  outcome (spending_form [] (categories_unwritable 0 true)
             (fill five "Lunch" 1 "food" fresh_world))
  = Returned (StoreError "permission denied")
  /\ (exists cref,
         sent (events (spending_form [] (categories_unwritable 0 true)
                         (fill five "Lunch" 1 "food" fresh_world)))
         = [CategoryAdd cref
              (category_data (fill five "Lunch" 1 "food" fresh_world)
                 (resolved_option [] (fill five "Lunch" 1 "food" fresh_world)))])
  /\ In (st_error ("Error adding spending: " +:+ "permission denied"))
        (shown (events (spending_form [] (categories_unwritable 0 true)
                          (fill five "Lunch" 1 "food" fresh_world))))
  /\ world_after (spending_form [] (categories_unwritable 0 true)
                    (fill five "Lunch" 1 "food" fresh_world))
     = with_widgets default_widgets (fill five "Lunch" 1 "food" fresh_world).
Proof.
  apply failed_category_add_stops; try reflexivity.
  - repeat split; vm_compute; congruence.
  - simpl. tauto.
Defined.

Lemma form_returns categories env w :
  exists r, outcome (spending_form categories env w) = Returned r.
Proof.
  destruct (submit_button env) eqn:Hb.
  - destruct (form_pressed categories env w Hb) as (-> & _).
    apply submit_returns.
  - rewrite form_not_pressed by exact Hb. eexists. reflexivity.
Qed.

(** X4. No exception leaves the form: every run returns a result, whatever
    the widgets hold and whichever Firestore call fails. *)
Theorem form_always_returns categories env w :
  exists r, outcome (spending_form categories env w) = Returned r.
Proof. apply form_returns. Qed.

Lemma form_writes categories env w :
  well_formed_writes w (sent (events (spending_form categories env w)))
  /\ (submit_button env = false ->
      sent (events (spending_form categories env w)) = []).
Proof.
  rewrite form_sent. split; [|intros ->; reflexivity].
  destruct (submit_button env); [|exact I].
  unfold form_submit.
  destruct (submit_sent_shape categories (amount_of w)
              (description_input (widgets w)) (resolved_option categories w)
              (new_category_name_of categories w) env w)
    as [->|[(cref & Hc & _ & ->)|[(sref & Hs & _ & ->)|(cref & sref & Hc & Hs & _ & ->)]]];
    cbn; unfold own_category_add, own_spending_add; auto 10.
Qed.

(** X5. Whatever the outcome, the form sends at most a category document
    followed by at most a spending document, each to the collection of the
    session's user and tagged with their user id; the spending carries the
    server-timestamp sentinel and, after a category document, that
    category. Without the submit button nothing is sent. *)
Theorem form_writes_well_formed categories env w :
  well_formed_writes w (sent (events (spending_form categories env w)))
  /\ (submit_button env = false ->
      sent (events (spending_form categories env w)) = []).
Proof. apply form_writes. Qed.

(** X6. A spending document is stored by exactly the runs that report
    success. *)
Theorem spending_stored_iff_success categories env w :
  (exists fc, outcome (spending_form categories env w) = Returned (Success fc))
  <-> spendings_docs (db (world_after (spending_form categories env w)))
      <> spendings_docs (db w).
Proof.
  split.
  - intros [fc H].
    destruct (form_success _ _ _ _ H) as (_ & _ & _ & sref & _ & _ & _ & _ & id & Hsp).
    rewrite Hsp. intros Heq.
    apply (f_equal (fun m => List.length (default [] (m !! sref)))) in Heq.
    rewrite lookup_insert_eq in Heq. cbn in Heq. rewrite length_app in Heq.
    cbn in Heq. lia.
  - intros Hne. rewrite form_db in Hne.
    destruct (submit_button env) eqn:Hb; [|congruence].
    destruct (form_pressed categories env w Hb) as (-> & _).
    destruct (outcome (form_submit categories env w)) as [[| | fc | |]|] eqn:Ho;
      try (exfalso; apply Hne, submit_spendings_docs; intros fc' H';
           unfold form_submit in Ho; rewrite Ho in H'; discriminate).
    exists fc. reflexivity.
Qed.

(** ** Whose collections a run touches *)

Lemma list_ascii_of_string_app s1 s2 :
  list_ascii_of_string (s1 +:+ s2)
  = list_ascii_of_string s1 ++ list_ascii_of_string s2.
Proof.
  induction s1 as [|c s1 IH]; [reflexivity|].
  change (list_ascii_of_string (String c s1 +:+ s2))
    with (c :: list_ascii_of_string (s1 +:+ s2)).
  rewrite IH. reflexivity.
Qed.

Lemma string_app_inv_tail s u u' : u +:+ s = u' +:+ s -> u = u'.
Proof.
  intros H. apply (f_equal list_ascii_of_string) in H.
  rewrite !list_ascii_of_string_app in H. apply app_inv_tail in H.
  apply (f_equal string_of_list_ascii) in H.
  rewrite !string_of_list_ascii_of_string in H. exact H.
Qed.

(** The user id can be read back from a collection path. *)
Lemma user_path_inj prefix suffix u u' :
  prefix +:+ u +:+ suffix = prefix +:+ u' +:+ suffix -> u = u'.
Proof.
  intros H. apply String.app_inj in H. apply string_app_inv_tail in H. exact H.
Qed.

Lemma categories_ref_of_user w ref :
  categories_collection_ref w = Some ref ->
  exists u, user_id (session_state w) = Some u
            /\ ref = "artifacts/" +:+ app_id w +:+ "/users/" +:+ u +:+ "/categories".
Proof.
  unfold categories_collection_ref.
  destruct (user_id (session_state w)) as [u|]; [|discriminate].
  destruct (Py.str_bool u); [|discriminate].
  intros [= <-]. eauto.
Qed.

Lemma spendings_ref_of_user w ref :
  spendings_collection_ref w = Some ref ->
  exists u, user_id (session_state w) = Some u
            /\ ref = "artifacts/" +:+ app_id w +:+ "/users/" +:+ u +:+ "/spendings".
Proof.
  unfold spendings_collection_ref.
  destruct (user_id (session_state w)) as [u|]; [|discriminate].
  destruct (Py.str_bool u); [|discriminate].
  intros [= <-]. eauto.
Qed.

(** X7. Two users of the application never share a collection: their
    categories paths differ and their spendings paths differ. *)
Theorem users_have_their_own_collections w u1 u2 c1 c2 s1 s2 :
  u1 <> u2 ->
  categories_collection_ref (as_user u1 w) = Some c1 ->
  categories_collection_ref (as_user u2 w) = Some c2 ->
  spendings_collection_ref (as_user u1 w) = Some s1 ->
  spendings_collection_ref (as_user u2 w) = Some s2 ->
  c1 <> c2 /\ s1 <> s2.
Proof.
  intros Hne Hc1 Hc2 Hs1 Hs2.
  apply categories_ref_of_user in Hc1 as (? & [= <-] & ->).
  apply categories_ref_of_user in Hc2 as (? & [= <-] & ->).
  apply spendings_ref_of_user in Hs1 as (? & [= <-] & ->).
  apply spendings_ref_of_user in Hs2 as (? & [= <-] & ->).
  cbn [as_user with_session_state app_id].
  split; intros H; apply String.app_inj, String.app_inj in H;
    apply user_path_inj in H; contradiction.
Qed.

Lemma users_have_their_own_collections_witness :
  "artifacts/default-app-id/users/alice/categories"
  <> "artifacts/default-app-id/users/bob/categories"
  /\ "artifacts/default-app-id/users/alice/spendings"
     <> "artifacts/default-app-id/users/bob/spendings".
Proof.
  apply (users_have_their_own_collections fresh_world "alice" "bob").
  - discriminate.
  - reflexivity.
  - reflexivity.
  - reflexivity.
  - reflexivity.
Defined.

(** The store after any run of the form: the categories are as before or
    have one more document in the collection of the session's user, and so
    have the spendings. *)
Lemma form_store categories env w :
  (categories_docs (db (world_after (spending_form categories env w)))
   = categories_docs (db w)
   \/ exists cref doc,
       categories_collection_ref w = Some cref
       /\ categories_docs (db (world_after (spending_form categories env w)))
          = <[cref := default [] (categories_docs (db w) !! cref) ++ [doc]]>
              (categories_docs (db w)))
  /\ (spendings_docs (db (world_after (spending_form categories env w)))
      = spendings_docs (db w)
      \/ exists sref doc,
          spendings_collection_ref w = Some sref
          /\ spendings_docs (db (world_after (spending_form categories env w)))
             = <[sref := default [] (spendings_docs (db w) !! sref) ++ [doc]]>
                 (spendings_docs (db w))).
Proof.
  split.
  - rewrite form_db. destruct (submit_button env); [|left; reflexivity].
    unfold form_submit.
    destruct (submit_categories_docs categories (amount_of w)
                (description_input (widgets w)) (resolved_option categories w)
                (new_category_name_of categories w) env w)
      as [H|(cref & Hc & _ & _ & _ & H)]; [left; exact H|].
    right. exists cref. eexists. split; [exact Hc|]. exact H.
  - destruct (submit_button env) eqn:Hb;
      [|left; rewrite form_db, Hb; reflexivity].
    destruct (form_pressed categories env w Hb) as (Hout & _).
    destruct (outcome (form_submit categories env w)) as [[| | fc | |]|] eqn:Ho.
    3: { destruct (form_success _ _ _ _ Hout)
           as (_ & _ & _ & sref & _ & Hs & _ & _ & id & Hsp).
         right. exists sref. eexists. split; [exact Hs|]. exact Hsp. }
    all: left; rewrite form_db, Hb; apply submit_spendings_docs; intros fc' H';
      unfold form_submit in Ho; rewrite Ho in H'; discriminate.
Qed.

(** X8. A run of the form never touches the collections of another user:
    the documents under the paths of any other user id are as before. *)
Theorem other_users_untouched categories env w other cref sref :
  user_id (session_state w) <> Some other ->
  categories_collection_ref (as_user other w) = Some cref ->
  spendings_collection_ref (as_user other w) = Some sref ->
  categories_docs (db (world_after (spending_form categories env w))) !! cref
  = categories_docs (db w) !! cref
  /\ spendings_docs (db (world_after (spending_form categories env w))) !! sref
     = spendings_docs (db w) !! sref.
Proof.
  intros Hother Hc Hs.
  apply categories_ref_of_user in Hc as (? & [= <-] & ->).
  apply spendings_ref_of_user in Hs as (? & [= <-] & ->).
  cbn [as_user with_session_state app_id].
  destruct (form_store categories env w) as [HC HS]. split.
  - destruct HC as [->|(c & doc & Hc & ->)]; [reflexivity|].
    apply categories_ref_of_user in Hc as (u & Hu & ->).
    apply lookup_insert_ne. intros H.
    apply String.app_inj, String.app_inj, user_path_inj in H. congruence.
  - destruct HS as [->|(s & doc & Hs & ->)]; [reflexivity|].
    apply spendings_ref_of_user in Hs as (u & Hu & ->).
    apply lookup_insert_ne. intros H.
    apply String.app_inj, String.app_inj, user_path_inj in H. congruence.
Qed.

Lemma other_users_untouched_witness :
  categories_docs (db (world_after (spending_form [] (calm 0 true)
                                      (fill five "Lunch" 1 "food" (as_user "bob" after_first_run)))))
  !! alice_categories
  = categories_docs (db (fill five "Lunch" 1 "food" (as_user "bob" after_first_run)))
    !! alice_categories
  /\ spendings_docs (db (world_after (spending_form [] (calm 0 true)
                                        (fill five "Lunch" 1 "food" (as_user "bob" after_first_run)))))
     !! alice_spendings
     = spendings_docs (db (fill five "Lunch" 1 "food" (as_user "bob" after_first_run)))
       !! alice_spendings.
Proof.
  apply (other_users_untouched [] (calm 0 true)
           (fill five "Lunch" 1 "food" (as_user "bob" after_first_run)) "alice").
  - vm_compute. discriminate.
  - vm_compute. reflexivity.
  - vm_compute. reflexivity.
Defined.

Lemma extends_refl {A} (l : list A) : extends l l.
Proof. exists []. split; [symmetry; apply app_nil_r | cbn; lia]. Qed.

Lemma form_grows_store categories env w :
  append_only (db w) (db (world_after (spending_form categories env w))).
Proof.
  intros ref. destruct (form_store categories env w) as [HC HS]. split.
  - destruct HC as [->|(c & doc & _ & ->)]; [apply extends_refl|].
    destruct (decide (c = ref)) as [->|Hne].
    + rewrite lookup_insert_eq. exists [doc]. split; [reflexivity | cbn; lia].
    + rewrite lookup_insert_ne by exact Hne. apply extends_refl.
  - destruct HS as [->|(s & doc & _ & ->)]; [apply extends_refl|].
    destruct (decide (s = ref)) as [->|Hne].
    + rewrite lookup_insert_eq. exists [doc]. split; [reflexivity | cbn; lia].
    + rewrite lookup_insert_ne by exact Hne. apply extends_refl.
Qed.

(** X9. The store only grows: after any run of the form every collection
    holds the documents it held before, unchanged and in the same order,
    followed by at most the document just added. *)
Theorem form_append_only categories env w :
  append_only (db w) (db (world_after (spending_form categories env w))).
Proof. apply form_grows_store. Qed.

(** ** When a submission is accepted *)

Lemma category_messages categories env w :
  submit_button env = true ->
  Py.float_bool (amount_of w) = true ->
  description_input (widgets w) <> EmptyString ->
  (outcome (spending_form categories env w)
   = Returned (ValidationError "Please select or create a category.")
   <-> selected_option categories w = "Select an existing category")
  /\ (outcome (spending_form categories env w)
      = Returned (ValidationError "Please enter a name for the new category.")
      <-> selected_option categories w = "--- Create New Category ---"
          /\ new_category_input (widgets w) = EmptyString).
Proof.
  intros Hb Ha Hd.
  destruct (form_pressed categories env w Hb) as (Hout & _).
  destruct (submit_category_messages categories _ _ (resolved_option categories w)
              (new_category_name_of categories w) env w Ha Hd) as [Hp Hc].
  fold (form_submit categories env w) in Hp, Hc. rewrite <- Hout in Hp, Hc.
  assert (selected_option categories w = "Select an existing category" ->
          outcome (spending_form categories env w)
          = Returned (ValidationError "Please select or create a category.")) as Fp.
  { intros Hs. apply Hp. unfold resolved_option. rewrite Hs. reflexivity. }
  assert (selected_option categories w = "--- Create New Category ---" ->
          new_category_input (widgets w) = EmptyString ->
          outcome (spending_form categories env w)
          = Returned (ValidationError "Please enter a name for the new category.")) as Fc.
  { intros Hs Hn. apply Hc.
    - unfold resolved_option. rewrite Hs, Hn. reflexivity.
    - unfold new_category_name_of. rewrite Hs, Hn. reflexivity. }
  split; split.
  - intros H. destruct (form_category_checks _ _ _ _ Ha Hd H) as [C|[C1 C2]];
      [exact C|]. rewrite (Fc C1 C2) in H. discriminate.
  - exact Fp.
  - intros H. destruct (form_category_checks _ _ _ _ Ha Hd H) as [C|C];
      [|exact C]. rewrite (Fp C) in H. discriminate.
  - intros [C1 C2]. exact (Fc C1 C2).
Qed.


(** X10. With a non-zero amount and a description, the two category
    messages are the answers of exactly these forms: the placeholder left
    selected, and "create new" selected without a name. *)
Theorem category_validation_messages categories env w :
  submit_button env = true ->
  Py.float_bool (amount_of w) = true ->
  description_input (widgets w) <> EmptyString ->
  (outcome (spending_form categories env w)
   = Returned (ValidationError "Please select or create a category.")
   <-> selected_option categories w = "Select an existing category")
  /\ (outcome (spending_form categories env w)
      = Returned (ValidationError "Please enter a name for the new category.")
      <-> selected_option categories w = "--- Create New Category ---"
          /\ new_category_input (widgets w) = EmptyString).
Proof. apply category_messages. Qed.

Lemma category_validation_messages_witness :
  (outcome (spending_form ["Food"] (calm 0 true) (fill five "Lunch" 0 "" fresh_world))
   = Returned (ValidationError "Please select or create a category.")
   <-> selected_option ["Food"] (fill five "Lunch" 0 "" fresh_world)
       = "Select an existing category")
  /\ (outcome (spending_form ["Food"] (calm 0 true) (fill five "Lunch" 0 "" fresh_world))
      = Returned (ValidationError "Please enter a name for the new category.")
      <-> selected_option ["Food"] (fill five "Lunch" 0 "" fresh_world)
          = "--- Create New Category ---"
          /\ new_category_input (widgets (fill five "Lunch" 0 "" fresh_world)) = EmptyString).
Proof.
  apply category_validation_messages.
  - reflexivity.
  - reflexivity.
  - vm_compute. discriminate.
Defined.

(** X11. A run succeeds only on an acceptable form of a signed-in user, and
    the category it records is either one of the listed categories or the
    normalized name typed under "create new". *)
Theorem success_needs_acceptable_form categories env w fc :
  outcome (spending_form categories env w) = Returned (Success fc) ->
  submit_button env = true
  /\ acceptable categories w
  /\ Py.opt_bool (user_id (session_state w)) = true
  /\ (In fc categories
      \/ selected_option categories w = "--- Create New Category ---"
         /\ fc = normalize (new_category_input (widgets w))).
Proof.
  intros H.
  destruct (form_success _ _ _ _ H) as (Hb & Hfc & _ & sref & _ & Hs & _).
  assert (Py.float_bool (amount_of w) = true
          /\ description_input (widgets w) <> EmptyString) as [Ha Hd].
  { destruct (Py.float_bool (amount_of w)) eqn:Ha;
      destruct (description_input (widgets w)) as [|c d] eqn:Hd;
      try (split; [reflexivity | discriminate]).
    all: assert (outcome (spending_form categories env w)
                 = Returned (ValidationError "Please enter both Amount and Description."))
      as H' by (apply form_first_check; auto).
    all: rewrite H in H'; discriminate. }
  destruct (category_messages categories env w Hb Ha Hd) as [[_ Fp] [_ Fc]].
  assert (selected_option categories w <> "Select an existing category") as Hp.
  { intros C. rewrite (Fp C) in H. discriminate. }
  assert (selected_option categories w = "--- Create New Category ---" ->
          new_category_input (widgets w) <> EmptyString) as Hn.
  { intros C1 C2. rewrite (Fc (conj C1 C2)) in H. discriminate. }
  split; [exact Hb|]. split; [repeat split; assumption|]. split.
  - unfold spendings_collection_ref in Hs.
    destruct (user_id (session_state w)) as [u|]; [|discriminate].
    cbn. destruct (Py.str_bool u); [reflexivity|discriminate].
  - unfold resolved_option in Hfc.
    destruct (String.eqb (selected_option categories w) "--- Create New Category ---")
      eqn:Es; cbn [andb] in Hfc.
    + apply String.eqb_eq in Es. right. split; [exact Es|].
      pose proof (Hn Es) as Hne. apply str_bool_true in Hne.
      rewrite Hne in Hfc. exact Hfc.
    + apply String.eqb_neq in Es. left. subst fc.
      destruct (selected_option_cases categories w) as [C|[C|C]];
        [contradiction|contradiction|exact C].
Qed.

Lemma success_needs_acceptable_form_witness :
  submit_button (calm 0 true) = true
  /\ acceptable ["Food"] (fill five "Lunch" 1 "" fresh_world)
  /\ Py.opt_bool (user_id (session_state (fill five "Lunch" 1 "" fresh_world))) = true
  /\ (In "Food" ["Food"]
      \/ selected_option ["Food"] (fill five "Lunch" 1 "" fresh_world)
         = "--- Create New Category ---"
         /\ "Food" = normalize (new_category_input (widgets (fill five "Lunch" 1 "" fresh_world)))).
Proof.
  apply (success_needs_acceptable_form ["Food"] (calm 0 true)
           (fill five "Lunch" 1 "" fresh_world) "Food").
  vm_compute. reflexivity.
Defined.

(** X12. A run that succeeds moves [last_update_time] to the time of the
    run, keeps the user signed in as before, and leaves the form cleared. *)
Theorem success_marks_the_update categories env w fc :
  outcome (spending_form categories env w) = Returned (Success fc) ->
  session_state (world_after (spending_form categories env w))
  = {| user_id := user_id (session_state w);
       auth_ready := auth_ready (session_state w);
       last_update_time := Some (now env) |}
  /\ widgets (world_after (spending_form categories env w)) = default_widgets.
Proof.
  intros H. destruct (form_success _ _ _ _ H) as (Hb & _).
  destruct (form_pressed categories env w Hb) as (Hout & Hw & _).
  rewrite Hout in H. rewrite Hw. split; [|reflexivity].
  cbn [with_widgets session_state].
  pose proof (submit_success_touches categories _ _ _ _ env w fc H) as Ht.
  destruct (submit_keeps_session categories (amount_of w)
              (description_input (widgets w)) (resolved_option categories w)
              (new_category_name_of categories w) env w) as (_ & Hu & Hr & _).
  fold (form_submit categories env w) in Ht, Hu, Hr.
  destruct (session_state (world_after (form_submit categories env w))) as [u r t].
  cbn in *. subst. reflexivity.
Qed.

Lemma success_marks_the_update_witness :
  session_state (world_after (spending_form ["Food"] (calm 42 true)
                                (fill five "Lunch" 1 "" fresh_world)))
  = {| user_id := user_id (session_state (fill five "Lunch" 1 "" fresh_world));
       auth_ready := auth_ready (session_state (fill five "Lunch" 1 "" fresh_world));
       last_update_time := Some (now (calm 42 true)) |}
  /\ widgets (world_after (spending_form ["Food"] (calm 42 true)
                             (fill five "Lunch" 1 "" fresh_world)))
     = default_widgets.
Proof.
  apply (success_marks_the_update ["Food"] (calm 42 true)
           (fill five "Lunch" 1 "" fresh_world) "Food").
  vm_compute. reflexivity.
Defined.


(** ** The reads *)

(** Unfold the monad. *)
Ltac unfold_monad :=
  unfold mbind, M_bind, bind, mret, M_ret, ret, get, ask, show, emit, raise,
    try_except in *;
  cbn [fst snd] in *.

(** The loop of lines 89-95 ends at its first document: the document has
    the key 'timestamp', and line 93 raises. *)
Lemma spending_rows_raise doc docs env w :
  for_each spending_row (doc :: docs) env w
  = (Raised (Error "module 'firebase_admin.firestore' has no attribute 'Timestamp'"),
     w, []).
Proof. reflexivity. Qed.

(** What the body of [fetch_spendings] does, case by case. *)
Lemma fetch_spendings_run uid ts env w :
  fetch_spendings_body uid ts env w
  = match spendings_collection_ref w with
    | None => (Returned Pd.empty_frame, w, [])
    | Some ref =>
        match spendings_get_error env with
        | Some e =>
            (Returned Pd.empty_frame, w,
             [Shown (st_error ("Error fetching spendings: " +:+ e))])
        | None =>
            match spendings_in_order (db w) ref with
            | [] => (Returned Pd.empty_frame, w, [])
            | _ :: _ =>
                (Returned Pd.empty_frame, w,
                 [Shown (st_error "Error fetching spendings: module 'firebase_admin.firestore' has no attribute 'Timestamp'")])
            end
        end
    end.
Proof.
  unfold fetch_spendings_body, get_spendings_collection_ref,
    Firestore.get_spendings_by_timestamp_desc, spendings_in_order.
  unfold mbind, M_bind, bind, mret, M_ret, ret, get, try_except. cbn [fst snd].
  destruct (spendings_collection_ref w) as [ref|]; [|reflexivity].
  destruct (spendings_get_error env); [reflexivity|].
  destruct (merge_sort Firestore.newer_first (default [] (spendings_docs (db w) !! ref)))
    as [|doc docs]; [reflexivity|].
  rewrite spending_rows_raise. reflexivity.
Qed.

Lemma display_spendings_empty env w :
  display_spendings Pd.empty_frame env w
  = (Returned tt, w, [Shown (st_info "No spendings recorded yet. Add some above!")]).
Proof. reflexivity. Qed.

(** Whatever frame it is given, [display_spendings] leaves the world as it
    is and shows at most one element. *)
Lemma display_spendings_read_only df : read_only (display_spendings df).
Proof.
  intros env w. unfold display_spendings, Pd.select, Pd.set_columns.
  destruct (negb (Pd.empty df)); [|split; reflexivity].
  unfold_monad.
  destruct (Pd.indices (columns df) display_columns); cbn; split; reflexivity.
Qed.

(** ** The cache of the categories *)

(** Both parameters of the cached functions start with an underscore: the
    key of their entries is empty. *)
Lemma hashed_underscored (uid : option string) (ts : option Z) :
  St.hashed [("_user_id", ArgUser uid); ("_timestamp", ArgTime ts)] = [].
Proof. reflexivity. Qed.

Lemma sent_map_Shown l : sent (map Shown l) = [].
Proof. induction l as [|x l IH]; [reflexivity | exact IH]. Qed.

(** A call that misses runs [fetch_categories_body] and stores what it returned. *)
Lemma cached_fetch_categories_on_miss uid ts env w :
  categories_cache_misses (now env) w ->
  exists cats evs others,
    fetch_categories_body uid ts env w = (Returned cats, w, evs)
    /\ fetch_categories uid ts env w
       = (Returned cats,
          with_categories_cache
            ({| entry_key := []; entry_stored_at := now env;
                entry_value := cats; entry_replay := shown evs |} :: others) w,
          evs).
Proof.
  intros Hmiss. unfold categories_cache_misses in Hmiss.
  unfold fetch_categories, St.cache_data.
  rewrite hashed_underscored, Hmiss.
  rewrite fetch_categories_run.
  destruct (categories_collection_ref w) as [ref|];
    [destruct (categories_get_error env)|]; eexists _, _, _; split; reflexivity.
Qed.




(** X18. For 60 seconds after a call that missed the cache, every call of
    [fetch_categories] returns the list stored by that call,
    whatever its arguments, whatever the store holds by then and whether or
    not a read would fail; it does not change the world and sends nothing.
    The new [last_update_time] passed as [_timestamp] makes no
    difference. *)
Theorem categories_served_from_cache uid ts env w uid' ts' env' w' :
  categories_cache_misses (now env) w ->
  fetch_categories_cache w'
  = fetch_categories_cache (world_after (fetch_categories uid ts env w)) ->
  now env' < now env + 60 ->
  outcome (fetch_categories uid' ts' env' w')
  = outcome (fetch_categories uid ts env w)
  /\ world_after (fetch_categories uid' ts' env' w') = w'
  /\ sent (events (fetch_categories uid' ts' env' w')) = [].
Proof.
  intros Hmiss Hcache Hnow.
  destruct (cached_fetch_categories_on_miss uid ts env w Hmiss)
    as (cats & evs & others & _ & Hfirst).
  rewrite Hfirst in Hcache |- *. cbn in Hcache.
  unfold fetch_categories at 1 2 3, St.cache_data.
  rewrite hashed_underscored, Hcache. cbn [List.find].
  unfold St.fresh_entry at 1 3 5. cbn [entry_key entry_stored_at].
  assert ((now env' <? now env + 60) = true) as -> by (apply Z.ltb_lt; exact Hnow).
  cbn. repeat split. apply sent_map_Shown.
Qed.

Lemma categories_served_from_cache_witness :
  outcome (fetch_categories (Some "alice") (Some 0) (calm 10 false) after_first_run)
  = outcome (fetch_categories (Some "alice") None (calm 0 false) fresh_world)
  /\ world_after (fetch_categories (Some "alice") (Some 0) (calm 10 false)
                    after_first_run)
     = after_first_run
  /\ sent (events (fetch_categories (Some "alice") (Some 0) (calm 10 false)
                     after_first_run)) = [].
Proof.
  apply categories_served_from_cache.
  - reflexivity.
  - vm_compute. reflexivity.
  - vm_compute. reflexivity.
Defined.

(** X19. Once every entry of the cache is 60 seconds old, a call of the
    [fetch_categories] reads the store again: for a signed-in user
    and a read that succeeds it returns the sorted names stored now. *)
Theorem categories_refetched_after_ttl uid ts env w ref :
  Forall (fun e => entry_stored_at e + 60 <= now env) (fetch_categories_cache w) ->
  categories_collection_ref w = Some ref ->
  categories_get_error env = None ->
  outcome (fetch_categories uid ts env w)
  = Returned (Py.sorted (category_names (db w) ref)).
Proof.
  intros Hold Href Hok.
  assert (categories_cache_misses (now env) w) as Hmiss.
  { unfold categories_cache_misses.
    induction Hold as [|e l He _ IH]; [reflexivity|].
    cbn [List.find]. unfold St.fresh_entry at 1.
    assert ((now env <? entry_stored_at e + 60) = false) as ->
        by (apply Z.ltb_ge; exact He).
    rewrite andb_false_r. exact IH. }
  destruct (cached_fetch_categories_on_miss uid ts env w Hmiss)
    as (cats & evs & others & Hbody & ->).
  rewrite fetch_categories_run, Href, Hok in Hbody.
  injection Hbody as <- _. reflexivity.
Qed.

Lemma categories_refetched_after_ttl_witness :
  outcome (fetch_categories (Some "alice") (Some 0) (calm 60 false) after_first_run)
  = Returned (Py.sorted (category_names (db after_first_run) alice_categories)).
Proof.
  apply categories_refetched_after_ttl.
  - vm_compute. repeat constructor; discriminate.
  - reflexivity.
  - reflexivity.
Defined.

(** ** The cache of the spendings *)

Lemma cached_fetch_spendings_on_miss uid ts env w :
  spendings_cache_misses (now env) w ->
  exists df evs others,
    fetch_spendings_body uid ts env w = (Returned df, w, evs)
    /\ fetch_spendings uid ts env w
       = (Returned df,
          with_spendings_cache
            ({| entry_key := []; entry_stored_at := now env;
                entry_value := df; entry_replay := shown evs |} :: others) w,
          evs).
Proof.
  intros Hmiss. unfold spendings_cache_misses in Hmiss.
  unfold fetch_spendings, St.cache_data.
  rewrite hashed_underscored, Hmiss.
  rewrite fetch_spendings_run.
  destruct (spendings_collection_ref w) as [ref|];
    [destruct (spendings_get_error env);
     [|destruct (spendings_in_order (db w) ref)]|];
    eexists _, _, _; split; reflexivity.
Qed.

(** X20. The table is served from the cache in the same way: for 60 seconds
    after a call that missed, every call of [fetch_spendings]
    returns the frame stored by that call, whatever its arguments and
    whatever spendings were stored since. *)
Theorem spendings_served_from_cache uid ts env w uid' ts' env' w' :
  spendings_cache_misses (now env) w ->
  fetch_spendings_cache w'
  = fetch_spendings_cache (world_after (fetch_spendings uid ts env w)) ->
  now env' < now env + 60 ->
  outcome (fetch_spendings uid' ts' env' w')
  = outcome (fetch_spendings uid ts env w)
  /\ world_after (fetch_spendings uid' ts' env' w') = w'
  /\ sent (events (fetch_spendings uid' ts' env' w')) = [].
Proof.
  intros Hmiss Hcache Hnow.
  destruct (cached_fetch_spendings_on_miss uid ts env w Hmiss)
    as (df & evs & others & _ & Hfirst).
  rewrite Hfirst in Hcache |- *. cbn in Hcache.
  unfold fetch_spendings at 1 2 3, St.cache_data.
  rewrite hashed_underscored, Hcache. cbn [List.find].
  unfold St.fresh_entry at 1 3 5. cbn [entry_key entry_stored_at].
  assert ((now env' <? now env + 60) = true) as -> by (apply Z.ltb_lt; exact Hnow).
  cbn. repeat split. apply sent_map_Shown.
Qed.

Lemma spendings_served_from_cache_witness :
  outcome (fetch_spendings (Some "alice") (Some 10) (calm 20 false) after_quick_run)
  = outcome (fetch_spendings (Some "alice") (Some 0) (calm 0 true)
               (world_after (spending_form [] (calm 0 true)
                               (fill five "Lunch" 1 "food"
                                  (with_session_state
                                     {| user_id := Some "alice"; auth_ready := true;
                                        last_update_time := Some 0 |} fresh_world)))))
  /\ world_after (fetch_spendings (Some "alice") (Some 10) (calm 20 false)
                    after_quick_run)
     = after_quick_run
  /\ sent (events (fetch_spendings (Some "alice") (Some 10) (calm 20 false)
                     after_quick_run)) = [].
Proof.
  apply spendings_served_from_cache.
  - reflexivity.
  - vm_compute. reflexivity.
  - vm_compute. reflexivity.
Defined.

(** ** The table of the spendings *)

(** The query of line 87 returns a document when one is stored. *)
Lemma spendings_in_order_nil d ref :
  spendings_in_order d ref = [] -> default [] (spendings_docs d !! ref) = [].
Proof.
  unfold spendings_in_order. intros H.
  pose proof (merge_sort_Permutation Firestore.newer_first
                (default [] (spendings_docs d !! ref))) as P.
  rewrite H in P. apply Permutation_nil in P. exact P.
Qed.

(** C9. The table of the fetched spendings is never built. For a signed-in
    user with at least one spending stored, a call of [fetch_spendings] that
    goes to the store finds the key 'timestamp' in the first document,
    evaluates [firestore.Timestamp] at line 93 and raises AttributeError.
    The [except] of line 97 shows the error and returns the empty frame, and
    for the empty frame the page shows "No spendings recorded yet" where the
    table was to be. So the table of lines 206-210, with the columns
    timestamp, amount, category and description, most recent first, is
    built for no stored spending. *)
Theorem spendings_table_not_built uid ts env w ref :
  spendings_collection_ref w = Some ref ->
  spendings_get_error env = None ->
  default [] (spendings_docs (db w) !! ref) <> [] ->
  spendings_cache_misses (now env) w ->
  outcome (fetch_spendings uid ts env w) = Returned Pd.empty_frame
  /\ events (fetch_spendings uid ts env w)
     = [Shown (st_error "Error fetching spendings: module 'firebase_admin.firestore' has no attribute 'Timestamp'")]
  /\ forall env' w',
       display_spendings Pd.empty_frame env' w'
       = (Returned tt, w', [Shown (st_info "No spendings recorded yet. Add some above!")]).
Proof.
  intros Href Hok Hne Hmiss.
  destruct (cached_fetch_spendings_on_miss uid ts env w Hmiss)
    as (df & evs & others & Hbody & ->).
  rewrite fetch_spendings_run, Href, Hok in Hbody.
  destruct (spendings_in_order (db w) ref) as [|doc docs] eqn:E.
  - apply spendings_in_order_nil in E. contradiction.
  - injection Hbody as <- <-. repeat split.
Qed.

Lemma spendings_table_not_built_witness :
  outcome (fetch_spendings (Some "alice") (Some 100) (calm 200 false) after_failed_fetch)
  = Returned Pd.empty_frame
  /\ events (fetch_spendings (Some "alice") (Some 100) (calm 200 false) after_failed_fetch)
     = [Shown (st_error "Error fetching spendings: module 'firebase_admin.firestore' has no attribute 'Timestamp'")]
  /\ forall env' w',
       display_spendings Pd.empty_frame env' w'
       = (Returned tt, w', [Shown (st_info "No spendings recorded yet. Add some above!")]).
Proof.
  apply (spendings_table_not_built (Some "alice") (Some 100) (calm 200 false)
           after_failed_fetch alice_spendings).
  - vm_compute. reflexivity.
  - reflexivity.
  - vm_compute. discriminate.
  - vm_compute. reflexivity.
Defined.

(** The page of a user with two spendings stored: the error of line 98 and
    the line for no spendings, and no table. *)
Example page_without_table :
  List.length (default [] (spendings_docs (db after_failed_fetch) !! alice_spendings)) = 2%nat
  /\ shown (events (script (calm 200 false) after_failed_fetch))
     = [st_write "Logged in as: `alice`";
        st_error "Error fetching spendings: module 'firebase_admin.firestore' has no attribute 'Timestamp'";
        st_info "No spendings recorded yet. Add some above!";
        st_write "Data is stored in Firestore and can be easily exported for ML analysis.";
        st_write "Firestore Path: `artifacts/default-app-id/users/alice/...`"].
Proof. split; vm_compute; reflexivity. Qed.

(** X16. Whatever the store holds and whether or not the read fails, a
    call of [fetch_spendings] that goes to the store returns the empty
    frame. It does so silently exactly when the session has no user id or
    the read succeeds and finds no spending; otherwise an error is on the
    page. *)
Theorem fetched_frame_is_empty uid ts env w :
  spendings_cache_misses (now env) w ->
  outcome (fetch_spendings uid ts env w) = Returned Pd.empty_frame
  /\ (shown (events (fetch_spendings uid ts env w)) = [] <->
      forall ref, spendings_collection_ref w = Some ref ->
                  spendings_get_error env = None
                  /\ default [] (spendings_docs (db w) !! ref) = []).
Proof.
  intros Hmiss.
  destruct (cached_fetch_spendings_on_miss uid ts env w Hmiss)
    as (df & evs & others & Hbody & ->).
  rewrite fetch_spendings_run in Hbody. cbn [outcome events fst snd].
  destruct (spendings_collection_ref w) as [ref|].
  - destruct (spendings_get_error env) as [e|].
    + injection Hbody as <- <-. split; [reflexivity|]. cbn. split; [discriminate|].
      intros H. destruct (H ref eq_refl) as [? _]. discriminate.
    + destruct (spendings_in_order (db w) ref) as [|doc docs] eqn:E;
        injection Hbody as <- <-; (split; [reflexivity|]); cbn.
      * split; [|reflexivity]. intros _ r [= <-].
        split; [reflexivity | apply spendings_in_order_nil; exact E].
      * split; [discriminate|]. intros H. destruct (H ref eq_refl) as [_ Hd].
        unfold spendings_in_order in E. rewrite Hd in E. discriminate.
  - injection Hbody as <- <-. split; [reflexivity|]. cbn.
    split; [|reflexivity]. intros _ r [=].
Qed.

Lemma fetched_frame_is_empty_witness :
  outcome (fetch_spendings (Some "alice") None (spendings_unreadable 200 false)
             after_failed_fetch)
  = Returned Pd.empty_frame
  /\ (shown (events (fetch_spendings (Some "alice") None (spendings_unreadable 200 false)
                       after_failed_fetch)) = [] <->
      forall ref, spendings_collection_ref after_failed_fetch = Some ref ->
                  spendings_get_error (spendings_unreadable 200 false) = None
                  /\ default [] (spendings_docs (db after_failed_fetch) !! ref) = []).
Proof.
  apply fetched_frame_is_empty. vm_compute. reflexivity.
Defined.

(** ** A run of the page *)

Lemma script_stops env w :
  signed_in w = false ->
  script env w
  = (Raised StopException, w,
     [Shown (if auth_ready (session_state w)
             then st_error "Could not authenticate user. Please try refreshing the page."
             else st_info "Initializing application and authenticating...")])
  /\ sent (events (script env w)) = [].
Proof.
  unfold signed_in, script. unfold_monad. unfold st_stop, raise.
  destruct (auth_ready (session_state w)); cbn [negb andb]; [|split; reflexivity].
  intros H. apply andb_false_iff in H.
  destruct (negb (Py.opt_bool (user_id (session_state w)))) eqn:Hu; cbn [orb];
    [split; reflexivity|].
  destruct H as [H|H]; [rewrite H in Hu; discriminate|].
  apply negb_false_iff in H. rewrite H. split; reflexivity.
Qed.


(** X21. A session that is not signed in (authentication not attempted, no
    user id, the empty user id, or the fallback id of a failed sign-in)
    gets no form and no table: the run shows one message, stops, sends
    nothing to Firestore and leaves the world as it was. *)
Theorem page_stops_when_not_signed_in env w :
  signed_in w = false ->
  script env w
  = (Raised StopException, w,
     [Shown (if auth_ready (session_state w)
             then st_error "Could not authenticate user. Please try refreshing the page."
             else st_info "Initializing application and authenticating...")])
  /\ sent (events (script env w)) = [].
Proof. apply script_stops. Qed.

Lemma page_stops_when_not_signed_in_witness :
  script (calm 0 true)
    (fill five "Lunch" 1 "food"
       (with_session_state {| user_id := Some "anonymous_unauthenticated";
                              auth_ready := true; last_update_time := None |}
          fresh_world))
  = (Raised StopException,
     fill five "Lunch" 1 "food"
       (with_session_state {| user_id := Some "anonymous_unauthenticated";
                              auth_ready := true; last_update_time := None |}
          fresh_world),
     [Shown (if auth_ready
                  (session_state
                     (fill five "Lunch" 1 "food"
                        (with_session_state
                           {| user_id := Some "anonymous_unauthenticated";
                              auth_ready := true; last_update_time := None |}
                           fresh_world)))
             then st_error "Could not authenticate user. Please try refreshing the page."
             else st_info "Initializing application and authenticating...")])
  /\ sent (events (script (calm 0 true)
                     (fill five "Lunch" 1 "food"
                        (with_session_state
                           {| user_id := Some "anonymous_unauthenticated";
                              auth_ready := true; last_update_time := None |}
                           fresh_world)))) = [].
Proof.
  apply page_stops_when_not_signed_in. reflexivity.
Defined.

Lemma well_formed_writes_same_user w1 w2 l :
  same_user w1 w2 -> well_formed_writes w1 l -> well_formed_writes w2 l.
Proof.
  intros [Ha Hu].
  assert (categories_collection_ref w1 = categories_collection_ref w2) as Hc
      by (unfold categories_collection_ref; rewrite Ha, Hu; reflexivity).
  assert (spendings_collection_ref w1 = spendings_collection_ref w2) as Hs
      by (unfold spendings_collection_ref; rewrite Ha, Hu; reflexivity).
  unfold well_formed_writes, own_category_add, own_spending_add.
  rewrite Hc, Hs, Hu. exact (fun H => H).
Qed.

(** The cached fetches return, send nothing and change only their cache. *)
Lemma cached_fetch_categories_frame uid ts env w :
  exists cats w1 evs,
    fetch_categories uid ts env w = (Returned cats, w1, evs)
    /\ sent evs = []
    /\ app_id w1 = app_id w /\ session_state w1 = session_state w
    /\ widgets w1 = widgets w /\ db w1 = db w.
Proof.
  unfold fetch_categories, St.cache_data.
  destruct (List.find _ (fetch_categories_cache w)) as [e|].
  - eexists _, _, _. split; [reflexivity|]. split; [apply sent_map_Shown|]. auto.
  - rewrite fetch_categories_run.
    destruct (categories_collection_ref w) as [ref|];
      [destruct (categories_get_error env)|];
      eexists _, _, _; (split; [reflexivity|]); cbn; auto.
Qed.

Lemma cached_fetch_spendings_frame uid ts env w :
  exists df w1 evs,
    fetch_spendings uid ts env w = (Returned df, w1, evs)
    /\ sent evs = []
    /\ app_id w1 = app_id w /\ session_state w1 = session_state w
    /\ widgets w1 = widgets w /\ db w1 = db w.
Proof.
  unfold fetch_spendings, St.cache_data.
  destruct (List.find _ (fetch_spendings_cache w)) as [e|].
  - eexists _, _, _. split; [reflexivity|]. split; [apply sent_map_Shown|]. auto.
  - rewrite fetch_spendings_run.
    destruct (spendings_collection_ref w) as [ref|];
      [destruct (spendings_get_error env);
       [|destruct (spendings_in_order (db w) ref)]|];
      eexists _, _, _; (split; [reflexivity|]); cbn; auto.
Qed.

(** X14. Reading never writes. A call of [fetch_categories] or of
    [fetch_spendings] always returns, also when the read fails; it sends
    nothing to Firestore and leaves the store, the session state and the
    widgets as they are (what it may change is its own cache). Showing the
    spendings leaves the whole world as it is. *)
Theorem reads_never_write uid ts env w :
  (exists l w1 evs,
      fetch_categories uid ts env w = (Returned l, w1, evs)
      /\ sent evs = []
      /\ app_id w1 = app_id w /\ session_state w1 = session_state w
      /\ widgets w1 = widgets w /\ db w1 = db w)
  /\ (exists df w1 evs,
         fetch_spendings uid ts env w = (Returned df, w1, evs)
         /\ sent evs = []
         /\ app_id w1 = app_id w /\ session_state w1 = session_state w
         /\ widgets w1 = widgets w /\ db w1 = db w)
  /\ (forall df, read_only (display_spendings df)).
Proof.
  split; [apply cached_fetch_categories_frame|].
  split; [apply cached_fetch_spendings_frame|].
  apply display_spendings_read_only.
Qed.

(** The form keeps the application and the user. *)
Lemma form_same_user categories env w :
  same_user (world_after (spending_form categories env w)) w.
Proof.
  destruct (submit_button env) eqn:Hb.
  - destruct (form_pressed categories env w Hb) as (_ & -> & _).
    destruct (submit_keeps_session categories (amount_of w)
                (description_input (widgets w)) (resolved_option categories w)
                (new_category_name_of categories w) env w) as (Ha & Hu & _).
    split; [exact Ha | exact Hu].
  - rewrite form_not_pressed by exact Hb. split; reflexivity.
Qed.

(** A run of the page that passes the gate: the categories are fetched in
    a world [w0] that differs from [w] at most by the time of the last
    update, the form runs on them, and the page writes what the form
    writes. *)
Lemma script_writes_of_form env w :
  signed_in w = true ->
  exists w0 categories w1 ev1,
    same_user w0 w /\ db w0 = db w
    /\ fetch_categories_cache w0 = fetch_categories_cache w
    /\ fetch_categories (user_id (session_state w0))
         (last_update_time (session_state w0)) env w0
       = (Returned categories, w1, ev1)
    /\ same_user w1 w /\ db w1 = db w
    /\ sent (events (script env w)) = sent (events (spending_form categories env w1))
    /\ db (world_after (script env w))
       = db (world_after (spending_form categories env w1))
    /\ same_user (world_after (script env w))
                 (world_after (spending_form categories env w1)).
Proof.
  unfold signed_in. intros H.
  apply andb_true_iff in H as [H Hf]. apply andb_true_iff in H as [Hr Hu].
  apply negb_true_iff in Hf.
  destruct (script env w) as [[o wf] evf] eqn:E.
  unfold script in E. unfold_monad. rewrite Hr, Hu, Hf in E. cbn [negb orb] in E.
  match type of E with
  | context [ ?m env w ] =>
      match m with
      | match last_update_time (session_state w) with _ => _ end =>
          assert (exists w0, m env w = (Returned tt, w0, [])
                             /\ same_user w0 w /\ db w0 = db w
                             /\ fetch_categories_cache w0 = fetch_categories_cache w)
            as (w0 & Hstart & Hsame0 & Hdb0 & Hcache0)
            by (destruct (last_update_time (session_state w)); eexists;
                (split; [reflexivity|]); repeat split; reflexivity);
          rewrite Hstart in E
      end
  end.
  destruct (cached_fetch_categories_frame (user_id (session_state w0))
              (last_update_time (session_state w0)) env w0)
    as (cats & w1 & ev1 & E1 & Hs1 & Ha1 & Hss1 & _ & Hdb1).
  rewrite E1 in E.
  exists w0, cats, w1, ev1.
  assert (same_user w1 w) as Hsame1.
  { destruct Hsame0 as [A B]. split; [rewrite Ha1; exact A | rewrite Hss1; exact B]. }
  split; [exact Hsame0|]. split; [exact Hdb0|]. split; [exact Hcache0|].
  split; [exact E1|].
  split; [exact Hsame1|]. split; [rewrite Hdb1; exact Hdb0|].
  destruct (form_returns cats env w1) as [r Hr1].
  destruct (spending_form cats env w1) as [[o2 w2] ev2] eqn:E2.
  cbn in Hr1. subst o2.
  destruct (cached_fetch_spendings_frame (user_id (session_state w2))
              (last_update_time (session_state w2)) env w2)
    as (df & w3 & ev3 & E3 & Hs3 & Ha3 & Hss3 & _ & Hdb3).
  rewrite E3 in E.
  destruct (display_spendings_read_only df env w3) as [Hw4 Hs4].
  destruct (display_spendings df env w3) as [[[[]|e] w4] ev4];
    cbn in Hw4, Hs4; subst w4; cbn in E; injection E as <- <- <-.
  - cbn. rewrite !sent_app, Hs1, Hs3, Hs4, !app_nil_r. cbn.
    repeat split; try assumption. rewrite Hss3. reflexivity.
  - cbn. rewrite !sent_app, Hs1, Hs3, Hs4, !app_nil_r. cbn.
    repeat split; try assumption. rewrite Hss3. reflexivity.
Qed.

(** X22. Every run of the page sends at most a category document followed
    by at most a spending document, to the collections of the user of the
    session; the store only grows; the user of the session stays the same;
    and a run that was not triggered by the submit button sends nothing and
    leaves the store as it was. *)
Theorem page_writes env w :
  well_formed_writes w (sent (events (script env w)))
  /\ append_only (db w) (db (world_after (script env w)))
  /\ user_id (session_state (world_after (script env w))) = user_id (session_state w)
  /\ (submit_button env = false ->
      sent (events (script env w)) = []
      /\ db (world_after (script env w)) = db w).
Proof.
  destruct (signed_in w) eqn:Hs.
  - destruct (script_writes_of_form env w Hs)
      as (_ & cats & w1 & _ & _ & _ & _ & _ & Hsame & Hdb & -> & -> & Hafter).
    destruct (form_writes cats env w1) as [Hwf Hnone].
    split; [exact (well_formed_writes_same_user _ _ _ Hsame Hwf)|].
    split; [rewrite <- Hdb; apply form_grows_store|].
    split.
    + destruct Hafter as [_ ->].
      destruct (form_same_user cats env w1) as [_ ->]. apply Hsame.
    + intros Hb. split; [exact (Hnone Hb)|].
      rewrite form_db, Hb. exact Hdb.
  - destruct (script_stops env w Hs) as [-> _]. cbn.
    repeat split; try reflexivity; apply extends_refl.
Qed.




(** ** Signing in *)

(** What [authenticate] does, case by case. *)
Lemma authenticate_run auth_client env w :
  authenticate auth_client env w
  = if auth_ready (session_state w) then (Returned tt, w, [])
    else match sign_in_answer auth_client with
         | User uid =>
             (Returned tt,
              with_session_state
                {| user_id := Some uid; auth_ready := true;
                   last_update_time := last_update_time (session_state w) |} w,
              [Shown (if Py.opt_bool (initial_auth_token auth_client)
                      then st_success ("Authenticated as user: " +:+ uid)
                      else st_warning ("Signed in anonymously as: " +:+ uid))])
         | SignInError e =>
             (Returned tt,
              with_session_state
                {| user_id := Some "anonymous_unauthenticated"; auth_ready := true;
                   last_update_time := last_update_time (session_state w) |} w,
              [Shown (st_error ("Authentication failed: " +:+ e))])
         end.
Proof.
  unfold authenticate, sign_in_answer, signed_in_as, set_session_state, uid_of.
  unfold_monad.
  destruct (auth_ready (session_state w)); cbn [negb]; [reflexivity|].
  destruct (Py.opt_bool (initial_auth_token auth_client)).
  - destruct (sign_in_with_custom_token auth_client _) as [uid|e]; reflexivity.
  - destruct (sign_in_anonymously auth_client) as [uid|e]; reflexivity.
Qed.

(** X24. Authentication is attempted once per session and never blocks the
    page: a session that is ready is left as it is, without a message;
    otherwise, whether the sign-in succeeds or raises, the call returns and
    the session is ready afterwards. Nothing is sent to Firestore, and the
    store, the widgets and the time of the last update stay as they were. *)
Theorem authenticate_once auth_client env w :
  (auth_ready (session_state w) = true ->
   authenticate auth_client env w = (Returned tt, w, []))
  /\ outcome (authenticate auth_client env w) = Returned tt
  /\ auth_ready (session_state (world_after (authenticate auth_client env w))) = true
  /\ sent (events (authenticate auth_client env w)) = []
  /\ db (world_after (authenticate auth_client env w)) = db w
  /\ widgets (world_after (authenticate auth_client env w)) = widgets w
  /\ last_update_time (session_state (world_after (authenticate auth_client env w)))
     = last_update_time (session_state w).
Proof.
  rewrite authenticate_run.
  destruct (auth_ready (session_state w)) eqn:Hr.
  - repeat split; auto.
  - split; [discriminate|].
    destruct (sign_in_answer auth_client) as [uid|e]; cbn; repeat split; auto.
Qed.

(** X25. A sign-in that raises leaves the session with the fallback user
    id and the error on the page; this run of the page and every later run
    of the session then stop at the gate: no form, nothing sent, the store
    untouched. *)
Theorem failed_sign_in_locks_the_page auth_client env w e :
  auth_ready (session_state w) = false ->
  sign_in_answer auth_client = SignInError e ->
  user_id (session_state (world_after (authenticate auth_client env w)))
  = Some "anonymous_unauthenticated"
  /\ shown (events (authenticate auth_client env w))
     = [st_error ("Authentication failed: " +:+ e)]
  /\ outcome (page auth_client env w) = Raised StopException
  /\ sent (events (page auth_client env w)) = []
  /\ db (world_after (page auth_client env w)) = db w
  /\ forall auth_client' env',
      outcome (page auth_client' env' (world_after (page auth_client env w)))
      = Raised StopException
      /\ sent (events (page auth_client' env' (world_after (page auth_client env w)))) = []
      /\ world_after (page auth_client' env' (world_after (page auth_client env w)))
         = world_after (page auth_client env w).
Proof.
  intros Hr Hfail.
  pose proof (authenticate_run auth_client env w) as A.
  rewrite Hr, Hfail in A.
  set (w1 := with_session_state
               {| user_id := Some "anonymous_unauthenticated"; auth_ready := true;
                  last_update_time := last_update_time (session_state w) |} w) in *.
  assert (signed_in w1 = false) as Hout by reflexivity.
  assert (forall env0, page auth_client env0 w
                       = (Raised StopException, w1,
                          [Shown (st_error ("Authentication failed: " +:+ e));
                           Shown (st_error "Could not authenticate user. Please try refreshing the page.")]))
    as P.
  { intros env0. unfold page. unfold_monad.
    rewrite (authenticate_run auth_client env0 w), Hr, Hfail. fold w1.
    destruct (script_stops env0 w1 Hout) as [-> _]. reflexivity. }
  rewrite A, P. cbn [outcome world_after events fst snd shown sent].
  repeat split.
  all: unfold page; unfold_monad; rewrite authenticate_run; cbn [w1 with_session_state auth_ready session_state].
  all: destruct (script_stops env' w1 Hout) as [-> _]; reflexivity.
Qed.

Lemma failed_sign_in_locks_the_page_witness :
  user_id (session_state (world_after (authenticate auth_down (calm 0 false)
                                         (with_session_state new_session fresh_world))))
  = Some "anonymous_unauthenticated"
  /\ shown (events (authenticate auth_down (calm 0 false)
                      (with_session_state new_session fresh_world)))
     = [st_error ("Authentication failed: " +:+ "invalid token")]
  /\ outcome (page auth_down (calm 0 false) (with_session_state new_session fresh_world))
     = Raised StopException
  /\ sent (events (page auth_down (calm 0 false)
                     (with_session_state new_session fresh_world))) = []
  /\ db (world_after (page auth_down (calm 0 false)
                        (with_session_state new_session fresh_world)))
     = db (with_session_state new_session fresh_world)
  /\ forall auth_client' env',
      outcome (page auth_client' env'
                 (world_after (page auth_down (calm 0 false)
                                 (with_session_state new_session fresh_world))))
      = Raised StopException
      /\ sent (events (page auth_client' env'
                         (world_after (page auth_down (calm 0 false)
                                         (with_session_state new_session fresh_world)))))
         = []
      /\ world_after (page auth_client' env'
                        (world_after (page auth_down (calm 0 false)
                                        (with_session_state new_session fresh_world))))
         = world_after (page auth_down (calm 0 false)
                          (with_session_state new_session fresh_world)).
Proof.
  apply failed_sign_in_locks_the_page; reflexivity.
Defined.

(** X26. A sign-in that succeeds records the user id the service answered,
    with the token when the environment supplies one and anonymously
    otherwise; when this id is not empty and not the fallback id, the
    session passes the gate of the page. *)
Theorem successful_sign_in auth_client env w uid :
  auth_ready (session_state w) = false ->
  sign_in_answer auth_client = User uid ->
  user_id (session_state (world_after (authenticate auth_client env w))) = Some uid
  /\ shown (events (authenticate auth_client env w))
     = [if Py.opt_bool (initial_auth_token auth_client)
        then st_success ("Authenticated as user: " +:+ uid)
        else st_warning ("Signed in anonymously as: " +:+ uid)]
  /\ (uid <> EmptyString -> uid <> "anonymous_unauthenticated" ->
      signed_in (world_after (authenticate auth_client env w)) = true).
Proof.
  intros Hr Hok. rewrite authenticate_run, Hr, Hok. cbn.
  repeat split. intros Hne Hnf. unfold signed_in. cbn.
  apply str_bool_true in Hne. rewrite Hne. cbn.
  apply negb_true_iff, bool_decide_eq_false. congruence.
Qed.

Lemma successful_sign_in_witness :
  user_id (session_state (world_after (authenticate auth_up (calm 0 false)
                                         (with_session_state new_session fresh_world))))
  = Some "alice"
  /\ shown (events (authenticate auth_up (calm 0 false)
                      (with_session_state new_session fresh_world)))
     = [if Py.opt_bool (initial_auth_token auth_up)
        then st_success ("Authenticated as user: " +:+ "alice")
        else st_warning ("Signed in anonymously as: " +:+ "alice")]
  /\ ("alice" <> EmptyString -> "alice" <> "anonymous_unauthenticated" ->
      signed_in (world_after (authenticate auth_up (calm 0 false)
                                (with_session_state new_session fresh_world))) = true).
Proof.
  apply successful_sign_in; reflexivity.
Defined.
